(** * spyder-unittest backend: running a test process and reading its results

    A shallow embedding of [spyder_unittest/backend/testrunner.py] and
    [spyder_unittest/backend/noserunner.py].

    - Python exceptions are values of [PyExn]; code that may raise returns
      a [result].
    - An lxml element is a record with its tag, attribute dictionary, text
      and list of children.  Comments and processing instructions, which
      lxml also yields when iterating, behave in this code exactly like an
      element with an unknown tag, no attributes and no children, and are
      not given a node kind of their own.
    - The builtin [float] and the translation function [_] are parameters.
    - The file system, the Qt process object and the signals emitted are
      explicit state. *)

From Stdlib Require Import String Ascii List Bool NArith ZArith Lia.
From Stdlib Require QArith.QArith_base.
From stdpp Require Import base option list strings gmap.

Set Default Proof Using "Type".

(** ** Python values and exceptions *)

Inductive PyExn : Type :=
  | OSError
  | XMLSyntaxError
  | ValueError (msg : string)
  | TypeError
  | KeyError (key : string)
  | AttributeError
  | RuntimeError.

Inductive result (A : Type) : Type :=
  | Ok (a : A)
  | Raise (e : PyExn).
Arguments Ok {A} a.
Arguments Raise {A} e.

Definition bind {A B : Type} (m : result A) (k : A -> result B) : result B :=
  match m with
  | Ok a => k a
  | Raise e => Raise e
  end.

Notation "'do' x <- m ; k" := (bind m (fun x => k))
  (at level 10, x name, m at level 100, k at level 200).

(** [for x in l: body], the body threading the loop state and possibly
    raising. *)
Fixpoint for_each {A S : Type} (body : S -> A -> result S) (l : list A) (s : S)
  : result S :=
  match l with
  | [] => Ok s
  | x :: l' => do s' <- body s x; for_each body l' s'
  end.

(** Truth value of a string and of a value that is a string or [None]. *)
Definition str_bool (s : string) : bool :=
  match s with EmptyString => false | String _ _ => true end.

Definition opt_bool (o : option string) : bool :=
  match o with None => false | Some s => str_bool s end.

(** [str(x)] as ['{0}'.format(x)] prints it: [None] becomes ["None"]. *)
Definition py_str (o : option string) : string :=
  match o with None => "None" | Some s => s end.

Definition NL : string := String (ascii_of_nat 10) EmptyString.

(** [s.rstrip(chars)]: drop the longest suffix made of characters of
    [chars]. *)
Definition char_in (c : ascii) (chars : string) : bool :=
  existsb (Ascii.eqb c) (list_ascii_of_string chars).

Fixpoint rstrip (chars : string) (s : string) : string :=
  match s with
  | EmptyString => EmptyString
  | String c s' =>
      match rstrip chars s' with
      | EmptyString => if char_in c chars then EmptyString else String c EmptyString
      | r => String c r
      end
  end.

(** [s in (a, b, ...)] for strings *)
Definition str_in (s : string) (l : list string) : bool := existsb (String.eqb s) l.

(** [sep.join(l)] *)
Definition join (sep : string) (l : list string) : string := String.concat sep l.

(** [d[k]] on a dictionary with string keys. *)
Definition getitem {V : Type} (d : gmap string V) (k : string) : result V :=
  match d !! k with
  | Some v => Ok v
  | None => Raise (KeyError k)
  end.

(** ** lxml elements and the result file *)

#[warnings="-register-all"]
Inductive Element : Type := mkElement {
  tag : string;
  attrib : gmap string string;
  text : option string;
  children : list Element
}.

(** [e.get(key)] and [e.get(key, default=d)] *)
Definition get (e : Element) (key : string) : option string := attrib e !! key.

Definition get_default (e : Element) (key : string) (d : string) : string :=
  match attrib e !! key with Some v => v | None => d end.

(** What [etree.parse] finds at a path: nothing, a file it cannot read, a
    file that is not XML, or a document with its root element. *)
Inductive FileEntry : Type :=
  | Unreadable
  | Malformed
  | Document (root : Element).

Definition etree_parse (fs : gmap string FileEntry) (path : string) : result Element :=
  match fs !! path with
  | None => Raise OSError
  | Some Unreadable => Raise OSError
  | Some Malformed => Raise XMLSyntaxError
  | Some (Document root) => Ok root
  end.

(** The [try: data = etree.parse(...).getroot() except OSError: data = []]
    block shared by both runners; the value is what [for testcase in data]
    iterates over. *)
Definition read_data (fs : gmap string FileEntry) (path : string) : result (list Element) :=
  match etree_parse fs path with
  | Ok root => Ok (children root)
  | Raise OSError => Ok []
  | Raise e => Raise e
  end.

(** ** Test results *)

Inductive Category : Type := OK | FAIL | SKIP.

Record TestResult (Float : Type) : Type := mkTestResult {
  category : Category;
  status : string;
  name : string;
  message : string;
  time : Float;
  extra_text : string
}.
Arguments mkTestResult {Float}.
Arguments category {Float}.
Arguments status {Float}.
Arguments name {Float}.
Arguments message {Float}.
Arguments time {Float}.
Arguments extra_text {Float}.

Definition STATUS_TO_CATEGORY : gmap string Category :=
  <["ok" := OK]> (<["failure" := FAIL]> (<["error" := FAIL]> (<["skipped" := SKIP]> ∅))).

(** [float(x)] for [x] a string or [None]; [float_of_string] is the
    builtin on strings: the number read, or the message of the
    [ValueError] it raises. *)
Definition py_float {Float : Type} (float_of_string : string -> Float + string)
    (x : option string) : result Float :=
  match x with
  | None => Raise TypeError
  | Some s =>
      match float_of_string s with
      | inl f => Ok f
      | inr msg => Raise (ValueError msg)
      end
  end.

(** ** The Qt process object and the host

    [QProcess] holds what the runner sets on the object and what it later
    reads from it.  [kill_sent] records a call of [kill()]; the process
    leaves the [Running] state only when the host delivers its exit, which
    is when Qt emits the signal [finished] to the connected slots. *)

Inductive ProcessState : Type := NotRunning | Starting | Running.

Inductive ProcessChannelMode : Type := SeparateChannels | MergedChannels.

(** The only slot this code connects: the bound method [self.finished]. *)
Inductive Slot : Type := SelfFinished.

Record QProcess : Type := mkQProcess {
  channelMode : ProcessChannelMode;
  workingDirectory : string;
  finished_slots : list Slot;
  processEnvironment : option (gmap string string);
  program : option (string * list string);
  state : ProcessState;
  kill_sent : bool;
  standardOutput : string
}.

(** [QProcess(self)] *)
Definition new_QProcess : QProcess :=
  mkQProcess SeparateChannels "" [] None None NotRunning false "".

Definition setProcessChannelMode (m : ProcessChannelMode) (p : QProcess) : QProcess :=
  mkQProcess m (workingDirectory p) (finished_slots p) (processEnvironment p)
    (program p) (state p) (kill_sent p) (standardOutput p).

Definition setWorkingDirectory (d : string) (p : QProcess) : QProcess :=
  mkQProcess (channelMode p) d (finished_slots p) (processEnvironment p)
    (program p) (state p) (kill_sent p) (standardOutput p).

Definition finished_connect (sl : Slot) (p : QProcess) : QProcess :=
  mkQProcess (channelMode p) (workingDirectory p) (finished_slots p ++ [sl])
    (processEnvironment p) (program p) (state p) (kill_sent p) (standardOutput p).

Definition setProcessEnvironment (env : gmap string string) (p : QProcess) : QProcess :=
  mkQProcess (channelMode p) (workingDirectory p) (finished_slots p) (Some env)
    (program p) (state p) (kill_sent p) (standardOutput p).

Definition set_state (st : ProcessState) (p : QProcess) : QProcess :=
  mkQProcess (channelMode p) (workingDirectory p) (finished_slots p)
    (processEnvironment p) (program p) st (kill_sent p) (standardOutput p).

Definition set_standardOutput (out : string) (p : QProcess) : QProcess :=
  mkQProcess (channelMode p) (workingDirectory p) (finished_slots p)
    (processEnvironment p) (program p) (state p) (kill_sent p) out.

(** [p.kill()] *)
Definition kill (p : QProcess) : QProcess :=
  mkQProcess (channelMode p) (workingDirectory p) (finished_slots p)
    (processEnvironment p) (program p) (state p) true (standardOutput p).

(** [p.start(executable, args)] followed by [p.waitForStarted()]:
    [started] tells whether the host could launch the executable. *)
Definition process_start (executable : string) (args : list string) (started : bool)
    (p : QProcess) : QProcess :=
  mkQProcess (channelMode p) (workingDirectory p) (finished_slots p)
    (processEnvironment p) (Some (executable, args))
    (if started then Running else NotRunning) (kill_sent p) (standardOutput p).

(** What the code reads from its surroundings and never changes.
    [startable] tells whether an executable can be launched; [removable]
    whether [os.remove] succeeds on an existing path (it does not on a
    directory, without permission, or on a file in use);
    [environment_key] is the key under which [QProcessEnvironment] files a
    variable name: the name itself, except on Windows, where Qt compares
    names without regard to case. *)
Record Host : Type := mkHost {
  os_name : string;
  systemEnvironment : list string;
  default_resultfilename : string;
  startable : string -> bool;
  removable : string -> bool;
  environment_key : string -> string
}.

(** [config], of which only two fields are read. *)
Record TestConfig : Type := mkTestConfig {
  framework : string;
  wdir : string
}.

(** [s.partition(sep)] for a one-character separator. *)
Fixpoint partition (sep : ascii) (s : string) : string * string * string :=
  match s with
  | EmptyString => (EmptyString, EmptyString, EmptyString)
  | String c s' =>
      if Ascii.eqb c sep then (EmptyString, String sep EmptyString, s')
      else
        match partition sep s' with
        | (h, EmptyString, _) => (String c s', EmptyString, EmptyString)
        | (h, sp, t) => (String c h, sp, t)
        end
  end.

(** ** testrunner.py *)

Module TestRunner.
Section WithFloat.
Context {Float : Type} (float_of_string : string -> Float + string).

(** Body of the [for testcase in data] loop of [TestRunner.load_data]. *)
Definition testcase_result (testcase : Element) : result (TestResult Float) :=
  let name := py_str (get testcase "classname") +:+ "." +:+ py_str (get testcase "name") in
  do time <- py_float float_of_string (get testcase "time");
  let '(status, message, extra_text) :=
    match children testcase with
    | test_error :: _ =>
        let status := tag test_error in
        let type_ := get test_error "type" in
        let message := get_default test_error "message" "" in
        let message :=
          if opt_bool type_ && str_bool message
          then py_str type_ +:+ ": " +:+ message
          else if opt_bool type_ then py_str type_
          else message in
        let extra_text := match text test_error with
                          | Some t => if str_bool t then t else ""
                          | None => ""
                          end in
        (status, message, extra_text)
    | [] => ("ok", "", "")
    end in
  do category <- getitem STATUS_TO_CATEGORY status;
  Ok (mkTestResult category status name message time extra_text).

Definition load_data (fs : gmap string FileEntry) (resultfilename : string)
  : result (list (TestResult Float)) :=
  do data <- read_data fs resultfilename;
  for_each (fun testresults testcase =>
              do r <- testcase_result testcase;
              Ok (testresults ++ [r]))
           data [].

(** The runner object together with what it acts on: the files, the calls
    of [QProcess.start] made so far and the [sig_finished] emissions so
    far.  [process] is the object [self.process] refers to; [replaced]
    holds the process objects it referred to before: they are children of
    the runner, so they live on with [self.finished] connected to their
    signal. *)
Record World : Type := mkWorld {
  host : Host;
  resultfilename : string;
  process : option QProcess;
  fs : gmap string FileEntry;
  start_calls : list (string * list string);
  emitted : list (list (TestResult Float) * string);
  replaced : list QProcess
}.

(** A change of the object [self.process] refers to. *)
Definition set_process (p : option QProcess) (w : World) : World :=
  mkWorld (host w) (resultfilename w) p (fs w) (start_calls w) (emitted w) (replaced w).

(** [self.process = p] for a new object [p]. *)
Definition assign_process (p : QProcess) (w : World) : World :=
  mkWorld (host w) (resultfilename w) (Some p) (fs w) (start_calls w) (emitted w)
    (replaced w ++ match process w with Some q => [q] | None => [] end).

Definition set_replaced (l : list QProcess) (w : World) : World :=
  mkWorld (host w) (resultfilename w) (process w) (fs w) (start_calls w) (emitted w) l.

Definition set_fs (f : gmap string FileEntry) (w : World) : World :=
  mkWorld (host w) (resultfilename w) (process w) f (start_calls w) (emitted w)
    (replaced w).

Definition log_start (c : string * list string) (w : World) : World :=
  mkWorld (host w) (resultfilename w) (process w) (fs w) (start_calls w ++ [c]) (emitted w)
    (replaced w).

(** [self.sig_finished.emit(testresults, output)] *)
Definition sig_finished_emit (testresults : list (TestResult Float)) (output : string)
    (w : World) : World :=
  mkWorld (host w) (resultfilename w) (process w) (fs w) (start_calls w)
    (emitted w ++ [(testresults, output)]) (replaced w).

(** [__init__] *)
Definition init (h : Host) (fs0 : gmap string FileEntry) (resultfilename : option string)
  : World :=
  mkWorld h
    (match resultfilename with
     | None => default_resultfilename h
     | Some f => f
     end)
    None fs0 [] [] [].

(** [os.remove(path)]: [OSError] is raised when there is nothing at the
    path, and also when what is there cannot be removed, which then
    stays; otherwise the file is gone afterwards. *)
Definition os_remove (path : string) (w : World) : result unit * World :=
  match fs w !! path with
  | Some _ =>
      if removable (host w) path
      then (Ok tt, set_fs (delete path (fs w)) w)
      else (Raise OSError, w)
  | None => (Raise OSError, w)
  end.

(** [start].  [add_pathlist_to_PYTHONPATH] is Spyder's helper, given here
    as the list it leaves in [env].  The process object is assigned to
    [self.process] before the framework is looked at, so it is there even
    when [start] raises; the [OSError] of [os.remove] is caught and
    dropped. *)
Section Start.
Context (add_pathlist_to_PYTHONPATH : list string -> list string -> list string).

Definition start (config : TestConfig) (pythonpath : option (list string)) (w : World)
  : result unit * World :=
  let framework := framework config in
  let wdir := wdir config in
  let p := finished_connect SelfFinished
             (setWorkingDirectory wdir
                (setProcessChannelMode MergedChannels new_QProcess)) in
  let p :=
    match pythonpath with
    | Some pythonpath =>
        let env := systemEnvironment (host w) in
        let env := add_pathlist_to_PYTHONPATH env pythonpath in
        let processEnvironment :=
          fold_left (fun pe envItem =>
                       let '(envName, separator, envValue) := partition "=" envItem in
                       <[environment_key (host w) envName := envValue]> pe)
                    env (∅ : gmap string string) in
        setProcessEnvironment processEnvironment p
    | None => p
    end in
  let w := assign_process p w in
  let command :=
    if String.eqb framework "nose" then
      Ok ("nosetests", ["--with-xunit"; "--xunit-file=" +:+ resultfilename w])
    else if String.eqb framework "py.test" then
      Ok ("py.test", ["--junit-xml"; resultfilename w])
    else Raise (ValueError "Unknown framework") in
  match command with
  | Raise e => (Raise e, w)
  | Ok (executable, p_args) =>
      let executable :=
        if String.eqb (os_name (host w)) "nt" then executable +:+ ".exe" else executable in
      let w := snd (os_remove (resultfilename w) w) in
      let running := startable (host w) executable in
      let w := log_start (executable, p_args)
                 (set_process (Some (process_start executable p_args running p)) w) in
      if running then (Ok tt, w) else (Raise RuntimeError, w)
  end.

End Start.

Definition finished (w : World) : result unit * World :=
  match process w with
  | None => (Raise AttributeError, w)
  | Some p =>
      let output := standardOutput p in
      let w := set_process (Some (set_standardOutput "" p)) w in
      match load_data (fs w) (resultfilename w) with
      | Ok testresults => (Ok tt, sig_finished_emit testresults output w)
      | Raise e => (Raise e, w)
      end
  end.

Definition kill_if_running (w : World) : World :=
  match process w with
  | Some p =>
      match state p with
      | Running => set_process (Some (kill p)) w
      | _ => w
      end
  | None => w
  end.

(** The host's side of a run.  The child process prints, writes the file
    named on its command line, and exits; on exit Qt puts the process
    object in state [NotRunning] and calls the slots connected to its
    signal [finished]. *)
Definition child_prints (out : string) (w : World) : World :=
  match process w with
  | Some p => set_process (Some (set_standardOutput (standardOutput p +:+ out) p)) w
  | None => w
  end.

Definition child_writes (e : FileEntry) (w : World) : World :=
  set_fs (<[resultfilename w := e]> (fs w)) w.

Definition call_slot (sl : Slot) (w : World) : result unit * World :=
  match sl with
  | SelfFinished => finished w
  end.

Definition process_exits (w : World) : result unit * World :=
  match process w with
  | Some p =>
      match state p with
      | Running =>
          let w := set_process (Some (set_state NotRunning p)) w in
          fold_left (fun acc sl =>
                       match fst acc with
                       | Ok _ => call_slot sl (snd acc)
                       | Raise e => acc
                       end)
                    (finished_slots p) (Ok tt, w)
      | _ => (Ok tt, w)
      end
  | None => (Ok tt, w)
  end.

(** The exit of a process object that a later [start] replaced: Qt calls
    the slots connected to its signal just the same, and [self.finished]
    then works on the object [self.process] refers to now. *)
Definition replaced_process_exits (i : nat) (w : World) : result unit * World :=
  match replaced w !! i with
  | Some q =>
      match state q with
      | Running =>
          let w := set_replaced (<[i := set_state NotRunning q]> (replaced w)) w in
          fold_left (fun acc sl =>
                       match fst acc with
                       | Ok _ => call_slot sl (snd acc)
                       | Raise e => acc
                       end)
                    (finished_slots q) (Ok tt, w)
      | _ => (Ok tt, w)
      end
  | None => (Ok tt, w)
  end.

End WithFloat.
End TestRunner.

(** ** noserunner.py

    [runnerbase] is not among the sources; the [Category] and [TestResult]
    it exports are taken to be those of [testrunner.py], which the six
    positional arguments of the constructor call match.  [gettext] is the
    translation function bound to [_]. *)

Module NoseRunner.
Section WithFloat.
Context {Float : Type} (float_of_string : string -> Float + string).
Context (gettext : string -> string).

(** The variables the [for child in testcase] loop assigns. *)
Record Outcome : Type := mkOutcome {
  o_category : Category;
  o_status : string;
  o_message : string;
  o_extras : list string
}.

(** Body of the [for child in testcase] loop. *)
Definition child_step (st : Outcome) (child : Element) : result Outcome :=
  if str_in (tag child) ["error"; "failure"; "skipped"] then
    let category := if String.eqb (tag child) "skipped" then SKIP else FAIL in
    let status := tag child in
    let type_ := get child "type" in
    let message := get_default child "message" "" in
    let message :=
      if opt_bool type_
      then (if str_bool message then py_str type_ +:+ ": " +:+ message else py_str type_)
      else message in
    let extras :=
      if opt_bool (text child) then o_extras st ++ [py_str (text child)] else o_extras st in
    Ok (mkOutcome category status message extras)
  else if str_in (tag child) ["system-out"; "system-err"] then
    let heading :=
      if String.eqb (tag child) "system-out"
      then gettext "Captured stdout"
      else gettext "Captured stderr" in
    do contents <- match text child with
                   | Some t => Ok (rstrip NL t)
                   | None => Raise AttributeError
                   end;
    Ok (mkOutcome (o_category st) (o_status st) (o_message st)
          (o_extras st ++ ["----- " +:+ heading +:+ " -----" +:+ NL +:+ contents]))
  else Ok st.

(** Body of the [for testcase in data] loop of [NoseRunner.load_data]. *)
Definition testcase_result (testcase : Element) : result (TestResult Float) :=
  let name := py_str (get testcase "classname") +:+ "." +:+ py_str (get testcase "name") in
  do time <- py_float float_of_string (get testcase "time");
  do st <- for_each child_step (children testcase) (mkOutcome OK "ok" "" []);
  let extra_text := join (NL +:+ NL) (o_extras st) in
  Ok (mkTestResult (o_category st) (o_status st) name (o_message st) time extra_text).

Definition load_data (fs : gmap string FileEntry) (resultfilename : string)
  : result (list (TestResult Float)) :=
  do data <- read_data fs resultfilename;
  for_each (fun testresults testcase =>
              do r <- testcase_result testcase;
              Ok (testresults ++ [r]))
           data [].

(** [create_argument_list]; neither [config] nor [cov_path] is read. *)
Definition module : string := "nose".

Definition create_argument_list {Config CovPath : Type} (resultfilename : string)
    (config : Config) (cov_path : CovPath) : list string :=
  ["-m"; module; "--with-xunit"; "--xunit-file=" +:+ resultfilename].

(** [finished].  [read_all_process_output] belongs to [RunnerBase]; it is
    given as a function on the state [Base] of the base class that returns
    the output or raises.  [emitted] lists the [sig_finished] emissions, the
    third component being the flag passed as [True]. *)
Section Finished.
Context {Base : Type} (read_all_process_output : Base -> result string * Base).

Record Runner : Type := mkRunner {
  base : Base;
  resultfilename : string;
  emitted : list (list (TestResult Float) * string * bool)
}.

Definition finished (fs : gmap string FileEntry) (self : Runner) : result unit * Runner :=
  let '(r, b) := read_all_process_output (base self) in
  let self := mkRunner b (resultfilename self) (emitted self) in
  match r with
  | Raise e => (Raise e, self)
  | Ok output =>
      match load_data fs (resultfilename self) with
      | Raise e => (Raise e, self)
      | Ok testresults =>
          (Ok tt, mkRunner (base self) (resultfilename self)
                    (emitted self ++ [(testresults, output, true)]))
      end
  end.

End Finished.

End WithFloat.
End NoseRunner.


(** ** Result files the parsers accept, and what the children contribute *)

Section ResultFiles.
Context {Float : Type} (float_of_string : string -> Float + string).
Context (gettext : string -> string).

(** The [time] attribute is present and [float] reads it. *)
Definition time_parses (testcase : Element) : bool :=
  match get testcase "time" with
  | Some s => match float_of_string s with inl _ => true | inr _ => false end
  | None => false
  end.

(** Single-outcome-child files: every child of the root has a readable
    [time], and its first child, if it has one, is an [error], [failure] or
    [skipped] element. *)
Definition well_formed_A (root : Element) : bool :=
  forallb (fun testcase =>
             time_parses testcase &&
             match children testcase with
             | [] => true
             | c :: _ => str_in (tag c) ["error"; "failure"; "skipped"]
             end)
          (children root).

(** Multi-child files: every child of the root has a readable [time], and
    its [system-out] and [system-err] children have text. *)
Definition well_formed_B (root : Element) : bool :=
  forallb (fun testcase =>
             time_parses testcase &&
             forallb (fun c =>
                        if str_in (tag c) ["system-out"; "system-err"]
                        then match text c with Some _ => true | None => false end
                        else true)
                     (children testcase))
          (children root).

Definition is_outcome (c : Element) : bool :=
  str_in (tag c) ["error"; "failure"; "skipped"].

Definition is_stream (c : Element) : bool :=
  str_in (tag c) ["system-out"; "system-err"].

(** The blocks of [extra_text] in the specification's words: an outcome
    child contributes its text if it has any; a [system-out] or
    [system-err] child contributes a heading line followed by its text
    without trailing newlines; other children contribute nothing. *)
Definition heading_of (c : Element) : string :=
  "----- " +:+ gettext (if String.eqb (tag c) "system-out"
                        then "Captured stdout" else "Captured stderr")
           +:+ " -----".

Definition blocks_of (c : Element) : list string :=
  if is_outcome c then
    match text c with
    | Some t => if str_bool t then [t] else []
    | None => []
    end
  else if is_stream c then
    match text c with
    | Some t => [heading_of c +:+ NL +:+ rstrip NL t]
    | None => []
    end
  else [].

(** The name of a record, and the message and extra text [TestRunner]
    takes from a first child. *)
Definition full_name (tc : Element) : string :=
  py_str (get tc "classname") +:+ "." +:+ py_str (get tc "name").

Definition A_message (c : Element) : string :=
  if opt_bool (get c "type") && str_bool (get_default c "message" "")
  then py_str (get c "type") +:+ ": " +:+ get_default c "message" ""
  else if opt_bool (get c "type") then py_str (get c "type")
  else get_default c "message" "".

Definition A_extra_text (c : Element) : string :=
  match text c with
  | Some t => if str_bool t then t else ""
  | None => ""
  end.

End ResultFiles.

(** [s] occurs in [t]. *)
Definition contains (t s : string) : Prop :=
  exists before after : string, t = before +:+ s +:+ after.

(** ** Sample data

    A reader of unsigned decimal literals [digits], [digits.digits],
    [digits.] and [.digits], giving the exact rational the literal denotes
    (of which the value [float] returns is the nearest double).  It stands
    for [float] when the definitions are run on examples. *)

Definition digit_of (c : ascii) : option N :=
  let n := N_of_ascii c in
  if (48 <=? n)%N && (n <=? 57)%N then Some (n - 48)%N else None.

Fixpoint digits_from (acc : N) (s : string) : option N :=
  match s with
  | EmptyString => Some acc
  | String c s' =>
      match digit_of c with
      | Some d => digits_from (10 * acc + d)%N s'
      | None => None
      end
  end.

Definition decimal (s : string) : QArith_base.Q + string :=
  let error := "could not convert string to float: '" +:+ s +:+ "'" in
  let '(whole, _, frac) := partition "." s in
  if str_bool whole || str_bool frac then
    match digits_from 0%N whole, digits_from 0%N frac with
    | Some w, Some f =>
        let scale := (10 ^ N.of_nat (String.length frac))%N in
        inl (QArith_base.Qmake (Z.of_N (w * scale + f)) (N.succ_pos (N.pred scale)))
    | _, _ => inr error
    end
  else inr error.

Definition element (t : string) (attrs : list (string * string)) (txt : option string)
    (cs : list Element) : Element :=
  mkElement t (list_to_map attrs) txt cs.

Definition testcase (classname name time : string) (cs : list Element) : Element :=
  element "testcase" [("classname", classname); ("name", name); ("time", time)] None cs.

(** The two test cases of the specification's scenario. *)
Definition sample_suite : Element :=
  element "testsuite" [] None
    [testcase "TestA" "test_one" "0.01" [];
     testcase "TestA" "test_two" "0.02"
       [element "failure" [("type", "ValueError"); ("message", "bad")]
          (Some "Traceback") []]].

Definition sample_fs : gmap string FileEntry :=
  {[ "unittest.results" := Document sample_suite ]}.

(** A host on which every executable starts, and a runner on it with no
    result file yet. *)
Definition sample_host : Host :=
  mkHost "posix" ["PATH=/usr/bin"] "/tmp/unittest.results" (fun _ => true)
    (fun _ => true) (fun envName => envName).

Definition sample_world : TestRunner.World (Float := QArith_base.Q) :=
  TestRunner.init sample_host ∅ None.

Definition sample_config : TestConfig := mkTestConfig "py.test" "/proj".

(** [add_pathlist_to_PYTHONPATH] for an environment without [PYTHONPATH]
    on a host whose path separator is [:]. *)
Definition sample_add_pathlist (env pathlist : list string) : list string :=
  env ++ ["PYTHONPATH=" +:+ String.concat ":" pathlist].


Definition broken_time_suite : Element :=
  element "testsuite" [] None
    [testcase "T" "quick" "0.023" []; testcase "T" "odd" "abc" []].

(** Children used in the examples. *)
Definition boom_failure : Element :=
  element "failure" [("type", "AssertionError"); ("message", "boom")] None [].

Definition bare_error : Element :=
  element "error" [("type", "KeyError")] (Some "Traceback") [].

Definition skipped_child : Element :=
  element "skipped" [("type", "unittest.case.SkipTest"); ("message", "later")]
    (Some "SkipTest: later") [].

Definition hello_out : Element :=
  element "system-out" [] (Some ("hello" +:+ NL)) [].

Definition empty_out : Element := element "system-out" [] None [].

Definition ok_child : Element := element "ok" [("type", "T")] (Some "x") [].

Definition results_file (root : Element) : gmap string FileEntry :=
  {[ "unittest.results" := Document root ]}.

(** The sample runner after [start]: the process runs. *)
Definition started_world : TestRunner.World (Float := QArith_base.Q) :=
  snd (TestRunner.start sample_add_pathlist sample_config (Some ["/proj/src"]) sample_world).

(** ** Shapes of test cases *)

(** A test case both runners read alike: no children, or an outcome child
    first and after it neither outcome nor stream children. *)
Definition plain_testcase (tc : Element) : bool :=
  match children tc with
  | [] => true
  | c :: rest =>
      is_outcome c && forallb (fun d => negb (is_outcome d) && negb (is_stream d)) rest
  end.

(** The same element with other children. *)
Definition with_children (e : Element) (cs : list Element) : Element :=
  mkElement (tag e) (attrib e) (text e) cs.

(** The text consists of newlines only. *)
Definition only_newlines (s : string) : bool :=
  forallb (fun c => char_in c NL) (list_ascii_of_string s).

(** The name part of an environment item, as [start] splits it. *)
Definition env_name (envItem : string) : string := fst (fst (partition "=" envItem)).

(** The step of the loop in [start] that fills the process environment. *)
Definition env_step (h : Host) (pe : gmap string string) (envItem : string)
  : gmap string string :=
  let '(envName, separator, envValue) := partition "=" envItem in
  <[environment_key h envName := envValue]> pe.

(** ** More sample data *)

(** The records of [sample_suite]. *)
Definition sample_records : list (TestResult QArith_base.Q) :=
  [mkTestResult OK "ok" "TestA.test_one" "" (QArith_base.Qmake 1 100) "";
   mkTestResult FAIL "failure" "TestA.test_two" "ValueError: bad"
     (QArith_base.Qmake 2 100) "Traceback"].

(** A file whose second test case has no [time] attribute. *)
Definition untimed_testcase : Element :=
  element "testcase" [("classname", "T"); ("name", "untimed")] None [].

Definition untimed_suite : Element :=
  element "testsuite" [] None [testcase "T" "quick" "0.023" []; untimed_testcase].

(** A test case with children of other kinds around a failure and a
    stream, and one that fails and is then skipped. *)
Definition properties_child : Element := element "properties" [] None [].

Definition noisy_testcase : Element :=
  testcase "T" "noisy" "0.5" [properties_child; boom_failure; properties_child; hello_out].

Definition failed_then_skipped : Element :=
  testcase "T" "both" "0.5" [boom_failure; skipped_child].

Definition printing_testcase : Element := testcase "T" "prints" "0.5" [hello_out].

(** Upper case of the letters a to z, as Qt files variable names on
    Windows. *)
Definition upper_ascii (c : ascii) : ascii :=
  let n := N_of_ascii c in
  if (97 <=? n)%N && (n <=? 122)%N then ascii_of_N (n - 32) else c.

Fixpoint upper (s : string) : string :=
  match s with
  | EmptyString => EmptyString
  | String c s' => String (upper_ascii c) (upper s')
  end.

(** A Windows host, a host on which nothing starts, and a runner that
    still has the result file of an earlier run. *)
Definition windows_host : Host :=
  mkHost "nt" ["Path=C:/Python"; "PATH=C:/Qt"] "C:/Temp/unittest.results" (fun _ => true)
    (fun _ => true) upper.

Definition windows_world : TestRunner.World (Float := QArith_base.Q) :=
  TestRunner.init windows_host ∅ None.

Definition bare_host : Host :=
  mkHost "posix" [] "/tmp/unittest.results" (fun _ => false)
    (fun _ => true) (fun envName => envName).

Definition bare_world : TestRunner.World (Float := QArith_base.Q) :=
  TestRunner.init bare_host ∅ None.

Definition stale_world : TestRunner.World (Float := QArith_base.Q) :=
  TestRunner.init sample_host sample_fs (Some "unittest.results").

Definition restarted_world : TestRunner.World (Float := QArith_base.Q) :=
  snd (TestRunner.start sample_add_pathlist sample_config None stale_world).

(** A [NoseRunner] whose base class hands over its buffer as the output. *)
Definition buffer_output (b : string) : result string * string := (Ok b, "").

Definition sample_nose : NoseRunner.Runner (Float := QArith_base.Q) (Base := string) :=
  NoseRunner.mkRunner "1 failed" "unittest.results" [].

(** A host on which the result file cannot be removed, with the file of
    an earlier run; and the sample runner started a second time while its
    first process still runs. *)
Definition locked_host : Host :=
  mkHost "posix" [] "/tmp/unittest.results" (fun _ => true)
    (fun _ => false) (fun envName => envName).

Definition locked_world : TestRunner.World (Float := QArith_base.Q) :=
  TestRunner.init locked_host sample_fs (Some "unittest.results").

Definition relocked_world : TestRunner.World (Float := QArith_base.Q) :=
  snd (TestRunner.start sample_add_pathlist sample_config None locked_world).

Definition twice_started_world : TestRunner.World (Float := QArith_base.Q) :=
  snd (TestRunner.start sample_add_pathlist sample_config None started_world).

(** * Properties *)

(** ** The loops *)

Section Loops.
Context {A B : Type} (f : A -> result B).

Lemma bind_Ok_inv {X Y : Type} (m : result X) (k : X -> result Y) (y : Y) :
  bind m k = Ok y -> exists x, m = Ok x /\ k x = Ok y.
Proof. destruct m as [x|e]; simpl; [eauto | discriminate]. Qed.

(** The loop [for x in l: acc.append(f(x))] returns [acc] extended by the
    images of [l], in order. *)
Lemma for_each_append_Ok (l : list A) (acc rs : list B) :
  for_each (fun acc x => do r <- f x; Ok (acc ++ [r])) l acc = Ok rs <->
  exists rs', rs = acc ++ rs' /\ Forall2 (fun x r => f x = Ok r) l rs'.
Proof.
  revert acc. induction l as [|x l IH]; intros acc; simpl.
  - split.
    + intros [= <-]. exists []. rewrite app_nil_r. split; [done | constructor].
    + intros (rs' & -> & HF). inversion HF; subst. by rewrite app_nil_r.
  - destruct (f x) as [r|e] eqn:Hfx; simpl.
    + rewrite IH. split.
      * intros (rs' & -> & HF). exists (r :: rs'). rewrite <- app_assoc. simpl.
        split; [done | by constructor].
      * intros (rs' & -> & HF). inversion HF as [|? r0 ? rs0 Hr0 HF']; subst.
        assert (r0 = r) as -> by congruence.
        exists rs0. rewrite <- app_assoc. by simpl.
    + split; [discriminate |].
      intros (rs' & _ & HF). inversion HF; subst. congruence.
Qed.

(** It raises what [f] raises on the first element it fails on. *)
Lemma for_each_append_Raise (l : list A) (acc : list B) (e : PyExn) :
  for_each (fun acc x => do r <- f x; Ok (acc ++ [r])) l acc = Raise e <->
  exists pre x post,
    l = pre ++ x :: post /\ Forall (fun y => exists r, f y = Ok r) pre /\ f x = Raise e.
Proof.
  revert acc. induction l as [|x l IH]; intros acc; simpl.
  - split; [discriminate |]. intros (pre & y & post & Hl & _). by destruct pre.
  - destruct (f x) as [r|e'] eqn:Hfx; simpl.
    + rewrite IH. split.
      * intros (pre & y & post & -> & Hpre & Hy).
        exists (x :: pre), y, post. repeat split; [| done]. constructor; eauto.
      * intros (pre & y & post & Hl & Hpre & Hy). destruct pre as [|z pre]; simpl in Hl.
        -- injection Hl as -> ->. congruence.
        -- injection Hl as -> ->. inversion Hpre; subst. by exists pre, y, post.
    + split.
      * intros [= ->]. exists [], x, l. repeat split; [constructor | done].
      * intros (pre & y & post & Hl & Hpre & Hy). destruct pre as [|z pre]; simpl in Hl.
        -- injection Hl as -> ->. congruence.
        -- injection Hl as -> ->. inversion Hpre as [|? ? [r Hr] ?]; subst. congruence.
Qed.

End Loops.

(** ** The file and the category table *)

Lemma read_data_document (fs : gmap string FileEntry) (path : string) (root : Element) :
  fs !! path = Some (Document root) -> read_data fs path = Ok (children root).
Proof. intros H. unfold read_data, etree_parse. by rewrite H. Qed.

Lemma read_data_absent (fs : gmap string FileEntry) (path : string) :
  fs !! path = None \/ fs !! path = Some Unreadable -> read_data fs path = Ok [].
Proof. intros [H|H]; unfold read_data, etree_parse; by rewrite H. Qed.

Lemma STATUS_TO_CATEGORY_lookup (s : string) :
  STATUS_TO_CATEGORY !! s =
    if String.eqb s "ok" then Some OK
    else if String.eqb s "failure" then Some FAIL
    else if String.eqb s "error" then Some FAIL
    else if String.eqb s "skipped" then Some SKIP
    else None.
Proof.
  unfold STATUS_TO_CATEGORY.
  repeat (rewrite lookup_insert; case_decide as Hd;
          [subst s; reflexivity
          | apply not_eq_sym, String.eqb_neq in Hd; rewrite Hd; clear Hd]).
  apply lookup_empty.
Qed.

Lemma Forall_Ok_Forall2 {A B : Type} (f : A -> result B) (l : list A) :
  Forall (fun x => exists r, f x = Ok r) l ->
  exists rs, Forall2 (fun x r => f x = Ok r) l rs.
Proof.
  induction 1 as [|x l [r Hr] _ [rs IH]].
  - exists []. constructor.
  - exists (r :: rs). by constructor.
Qed.

(** ** Strings *)

Lemma str_app_assoc (s1 s2 s3 : string) : (s1 +:+ s2) +:+ s3 = s1 +:+ (s2 +:+ s3).
Proof.
  induction s1 as [|c s1 IH]; [done |].
  change (String c ((s1 +:+ s2) +:+ s3) = String c (s1 +:+ s2 +:+ s3)). by f_equal.
Qed.

Lemma str_app_nil_r (s : string) : s +:+ "" = s.
Proof.
  induction s as [|c s IH]; [done |].
  change (String c (s +:+ "") = String c s). by f_equal.
Qed.

Lemma str_app_cons (c : ascii) (s t : string) : String c s +:+ t = String c (s +:+ t).
Proof. reflexivity. Qed.

(** [rstrip] removes a suffix made of the given characters only, and what
    it leaves does not end with one of them. *)
Lemma rstrip_suffix (chars s : string) :
  exists suffix,
    s = rstrip chars s +:+ suffix /\
    forallb (fun c => char_in c chars) (list_ascii_of_string suffix) = true.
Proof.
  induction s as [|a s (suffix & Hs & Hall)]; [by exists "" |].
  simpl. destruct (rstrip chars s) as [|b r] eqn:Hr.
  - destruct (char_in a chars) eqn:Ha.
    + exists (String a s). split; [done |]. simpl. rewrite Ha. simpl.
      rewrite Hs. exact Hall.
    + exists suffix. split; [| done]. rewrite str_app_cons. f_equal. exact Hs.
  - exists suffix. split; [| done]. rewrite str_app_cons. f_equal. exact Hs.
Qed.

Lemma rstrip_last (chars s r : string) (c : ascii) :
  rstrip chars s = r +:+ String c "" -> char_in c chars = false.
Proof.
  revert r. induction s as [|a s IH]; intros r; simpl.
  - destruct r; discriminate.
  - destruct (rstrip chars s) as [|b r'] eqn:Hr.
    + destruct (char_in a chars) eqn:Ha; [destruct r; discriminate |].
      destruct r as [|a' r]; [by intros [= <-] |].
      rewrite str_app_cons. intros [= _ H]. destruct r; discriminate.
    + destruct r as [|a' r]; [discriminate |].
      rewrite str_app_cons. intros [= _ H]. by apply (IH r).
Qed.

Lemma contains_app_l (t s u : string) : contains t s -> contains (t +:+ u) s.
Proof.
  intros (b & a & ->). exists b, (a +:+ u). by rewrite !str_app_assoc.
Qed.

Lemma contains_app_r (t s u : string) : contains t s -> contains (u +:+ t) s.
Proof.
  intros (b & a & ->). exists (u +:+ b), a. by rewrite !str_app_assoc.
Qed.

Lemma contains_refl (s : string) : contains s s.
Proof. exists "", "". by rewrite str_app_nil_r. Qed.

Lemma join_cons (sep x : string) (l : list string) :
  join sep (x :: l) = match l with [] => x | _ :: _ => x +:+ sep +:+ join sep l end.
Proof. reflexivity. Qed.

(** A joined text contains each of its blocks. *)
Lemma join_contains (sep b : string) (l : list string) :
  In b l -> contains (join sep l) b.
Proof.
  induction l as [|x l IH]; [done |]. intros [->|Hin]; rewrite join_cons.
  - destruct l; [apply contains_refl | apply contains_app_l, contains_refl].
  - destruct l as [|y l]; [done |]. by apply contains_app_r, contains_app_r, IH.
Qed.

(** ** One test case *)

Section TestCases.
Context {Float : Type} (float_of_string : string -> Float + string).
Context (gettext : string -> string).

Lemma time_parses_Ok (tc : Element) :
  time_parses float_of_string tc = true ->
  exists f, py_float float_of_string (get tc "time") = Ok f.
Proof.
  unfold time_parses, py_float. destruct (get tc "time") as [s|]; [| discriminate].
  destruct (float_of_string s) as [f|msg]; [eauto | discriminate].
Qed.

(** [TestRunner]: a test case without children. *)
Lemma A_no_child (tc : Element) :
  children tc = [] ->
  TestRunner.testcase_result float_of_string tc =
    do t <- py_float float_of_string (get tc "time");
    Ok (mkTestResult OK "ok" (full_name tc) "" t "").
Proof.
  intros Hc. unfold TestRunner.testcase_result. rewrite Hc.
  destruct (py_float _ _) as [t|e]; reflexivity.
Qed.

(** [TestRunner]: a test case with children is read off its first child. *)
Lemma A_first_child (tc c : Element) (rest : list Element) :
  children tc = c :: rest ->
  TestRunner.testcase_result float_of_string tc =
    do t <- py_float float_of_string (get tc "time");
    do cat <- getitem STATUS_TO_CATEGORY (tag c);
    Ok (mkTestResult cat (tag c) (full_name tc) (A_message c) t (A_extra_text c)).
Proof.
  intros Hc. unfold TestRunner.testcase_result. rewrite Hc.
  destruct (py_float _ _) as [t|e]; reflexivity.
Qed.

Lemma getitem_outcome (s : string) :
  str_in s ["error"; "failure"; "skipped"] = true ->
  exists cat, getitem STATUS_TO_CATEGORY s = Ok cat.
Proof.
  unfold str_in, getitem. simpl. rewrite STATUS_TO_CATEGORY_lookup.
  destruct (String.eqb s "ok"); [eauto |].
  destruct (String.eqb s "failure"); [eauto |].
  destruct (String.eqb s "error"); [eauto |].
  destruct (String.eqb s "skipped"); [eauto | discriminate].
Qed.

Lemma well_formed_A_Ok (root : Element) :
  well_formed_A float_of_string root = true ->
  Forall (fun tc => exists r, TestRunner.testcase_result float_of_string tc = Ok r)
         (children root).
Proof.
  unfold well_formed_A. rewrite forallb_forall, Forall_forall.
  intros H tc Hin. apply list_elem_of_In, H, andb_prop in Hin as [Ht Hc].
  apply time_parses_Ok in Ht as [f Hf].
  destruct (children tc) as [|c rest] eqn:Hch.
  - rewrite (A_no_child tc Hch), Hf. simpl. eauto.
  - rewrite (A_first_child tc c rest Hch), Hf. simpl.
    apply getitem_outcome in Hc as [cat ->]. simpl. eauto.
Qed.

(** [NoseRunner]: the child loop never fails on children that are not
    streams without text. *)
Lemma child_step_Ok (st : NoseRunner.Outcome) (c : Element) :
  (if str_in (tag c) ["system-out"; "system-err"]
   then match text c with Some _ => true | None => false end
   else true) = true ->
  exists st', NoseRunner.child_step gettext st c = Ok st'.
Proof.
  unfold NoseRunner.child_step.
  destruct (str_in (tag c) ["error"; "failure"; "skipped"]); [eauto |].
  destruct (str_in (tag c) ["system-out"; "system-err"]); [| eauto].
  destruct (text c); [simpl; eauto | discriminate].
Qed.

Lemma child_loop_Ok (cs : list Element) (st : NoseRunner.Outcome) :
  forallb (fun c =>
             if str_in (tag c) ["system-out"; "system-err"]
             then match text c with Some _ => true | None => false end
             else true) cs = true ->
  exists st', for_each (NoseRunner.child_step gettext) cs st = Ok st'.
Proof.
  revert st. induction cs as [|c cs IH]; intros st; simpl; [eauto |].
  intros [Hc Hcs]%andb_prop.
  destruct (child_step_Ok st c Hc) as [st1 ->]. simpl. auto.
Qed.

Lemma well_formed_B_Ok (root : Element) :
  well_formed_B float_of_string root = true ->
  Forall (fun tc => exists r, NoseRunner.testcase_result float_of_string gettext tc = Ok r)
         (children root).
Proof.
  unfold well_formed_B. rewrite forallb_forall, Forall_forall.
  intros H tc Hin. apply list_elem_of_In, H, andb_prop in Hin as [Ht Hc].
  apply time_parses_Ok in Ht as [f Hf].
  unfold NoseRunner.testcase_result. rewrite Hf. simpl.
  destruct (child_loop_Ok _ (NoseRunner.mkOutcome OK "ok" "" []) Hc) as [st ->].
  simpl. eauto.
Qed.

End TestCases.

(** ** Reading the result file *)

Section Parsers.
Context {Float : Type} (float_of_string : string -> Float + string).
Context (gettext : string -> string).


(** C1: when the result file does not exist or cannot be opened,
    [load_data] of both runners returns the empty list and raises
    nothing. *)
Theorem load_data_missing_file (fs : gmap string FileEntry) (path : string) :
  fs !! path = None \/ fs !! path = Some Unreadable ->
  TestRunner.load_data float_of_string fs path = Ok [] /\ NoseRunner.load_data float_of_string gettext fs path = Ok [].
Proof.
  intros H. unfold TestRunner.load_data, NoseRunner.load_data.
  rewrite (read_data_absent fs path H). split; reflexivity.
Qed.

(** Both loaders run their test-case function over the children of the
    root, in order. *)
Lemma load_data_A_Ok (fs : gmap string FileEntry) (path : string) (root : Element)
    (rs : list (TestResult Float)) :
  fs !! path = Some (Document root) ->
  TestRunner.load_data float_of_string fs path = Ok rs <->
  Forall2 (fun tc r => TestRunner.testcase_result float_of_string tc = Ok r) (children root) rs.
Proof.
  intros Hf. unfold TestRunner.load_data. rewrite (read_data_document fs path root Hf).
  simpl. rewrite for_each_append_Ok. split.
  - intros (rs' & -> & HF). done.
  - intros HF. by exists rs.
Qed.

Lemma load_data_B_Ok (fs : gmap string FileEntry) (path : string) (root : Element)
    (rs : list (TestResult Float)) :
  fs !! path = Some (Document root) ->
  NoseRunner.load_data float_of_string gettext fs path = Ok rs <->
  Forall2 (fun tc r => NoseRunner.testcase_result float_of_string gettext tc = Ok r) (children root) rs.
Proof.
  intros Hf. unfold NoseRunner.load_data. rewrite (read_data_document fs path root Hf).
  simpl. rewrite for_each_append_Ok. split.
  - intros (rs' & -> & HF). done.
  - intros HF. by exists rs.
Qed.

Lemma load_data_A_Raise (fs : gmap string FileEntry) (path : string) (root : Element)
    (e : PyExn) :
  fs !! path = Some (Document root) ->
  TestRunner.load_data float_of_string fs path = Raise e <->
  exists pre tc post,
    children root = pre ++ tc :: post /\
    Forall (fun y => exists r, TestRunner.testcase_result float_of_string y = Ok r) pre /\ TestRunner.testcase_result float_of_string tc = Raise e.
Proof.
  intros Hf. unfold TestRunner.load_data. rewrite (read_data_document fs path root Hf).
  simpl. apply for_each_append_Raise.
Qed.

Lemma load_data_B_Raise (fs : gmap string FileEntry) (path : string) (root : Element)
    (e : PyExn) :
  fs !! path = Some (Document root) ->
  NoseRunner.load_data float_of_string gettext fs path = Raise e <->
  exists pre tc post,
    children root = pre ++ tc :: post /\
    Forall (fun y => exists r, NoseRunner.testcase_result float_of_string gettext y = Ok r) pre /\ NoseRunner.testcase_result float_of_string gettext tc = Raise e.
Proof.
  intros Hf. unfold NoseRunner.load_data. rewrite (read_data_document fs path root Hf).
  simpl. apply for_each_append_Raise.
Qed.

(** C7: a well-formed result file whose root has N test cases is read as
    exactly N records, the i-th record being that of the i-th test case
    and carrying its name; this holds for both runners. *)
Theorem load_data_one_record_per_testcase (fs : gmap string FileEntry) (path : string)
    (root : Element) :
  fs !! path = Some (Document root) ->
  (well_formed_A float_of_string root = true ->
   exists rs, TestRunner.load_data float_of_string fs path = Ok rs /\
     length rs = length (children root) /\
     forall i tc, children root !! i = Some tc ->
       exists r, rs !! i = Some r /\ TestRunner.testcase_result float_of_string tc = Ok r /\ name r = full_name tc) /\
  (well_formed_B float_of_string root = true ->
   exists rs, NoseRunner.load_data float_of_string gettext fs path = Ok rs /\
     length rs = length (children root) /\
     forall i tc, children root !! i = Some tc ->
       exists r, rs !! i = Some r /\ NoseRunner.testcase_result float_of_string gettext tc = Ok r /\ name r = full_name tc).
Proof.
  intros Hf. split; intros Hwf.
  - destruct (Forall_Ok_Forall2 _ _ (well_formed_A_Ok float_of_string root Hwf)) as [rs HF].
    exists rs. split; [by apply (load_data_A_Ok fs path root) |].
    split; [symmetry; by eapply Forall2_length |].
    intros i tc Hi. destruct (Forall2_lookup_l _ _ _ _ _ HF Hi) as (r & Hr & Htc).
    exists r. repeat split; [done | done |].
    unfold TestRunner.testcase_result in Htc.
    apply bind_Ok_inv in Htc as (t & _ & Htc).
    destruct (children tc) as [|c ?]; simpl in Htc;
      apply bind_Ok_inv in Htc as (cat & _ & [= <-]); reflexivity.
  - destruct (Forall_Ok_Forall2 _ _ (well_formed_B_Ok float_of_string gettext root Hwf))
      as [rs HF].
    exists rs. split; [by apply (load_data_B_Ok fs path root) |].
    split; [symmetry; by eapply Forall2_length |].
    intros i tc Hi. destruct (Forall2_lookup_l _ _ _ _ _ HF Hi) as (r & Hr & Htc).
    exists r. repeat split; [done | done |].
    unfold NoseRunner.testcase_result in Htc.
    apply bind_Ok_inv in Htc as (t & _ & Htc).
    apply bind_Ok_inv in Htc as (st & _ & [= <-]). reflexivity.
Qed.

(** C4: in a well-formed file read by [TestRunner], every test case
    without child elements gives a record of category [OK] with status
    ["ok"], empty message and empty extra text. *)
Theorem testcase_without_children_is_ok (fs : gmap string FileEntry) (path : string)
    (root : Element) :
  fs !! path = Some (Document root) ->
  well_formed_A float_of_string root = true ->
  exists rs, TestRunner.load_data float_of_string fs path = Ok rs /\
    forall i tc, children root !! i = Some tc -> children tc = [] ->
      exists r, rs !! i = Some r /\
        category r = OK /\ status r = "ok" /\ message r = "" /\ extra_text r = "".
Proof.
  intros Hf Hwf.
  destruct (Forall_Ok_Forall2 _ _ (well_formed_A_Ok float_of_string root Hwf)) as [rs HF].
  exists rs. split; [by apply (load_data_A_Ok fs path root) |].
  intros i tc Hi Hch. destruct (Forall2_lookup_l _ _ _ _ _ HF Hi) as (r & Hr & Htc).
  exists r. split; [done |].
  rewrite (A_no_child float_of_string tc Hch) in Htc.
  apply bind_Ok_inv in Htc as (t & _ & [= <-]). by simpl.
Qed.



Lemma testcase_bad_time (tc : Element) (e : PyExn) :
  py_float float_of_string (get tc "time") = Raise e ->
  TestRunner.testcase_result float_of_string tc = Raise e /\
  NoseRunner.testcase_result float_of_string gettext tc = Raise e.
Proof.
  intros H. unfold TestRunner.testcase_result, NoseRunner.testcase_result.
  rewrite H. split; reflexivity.
Qed.


(** What [TestRunner] makes of a first child, used below. *)
Lemma A_first_child_result (tc c : Element) (rest : list Element) (t : Float) :
  children tc = c :: rest ->
  py_float float_of_string (get tc "time") = Ok t ->
  TestRunner.testcase_result float_of_string tc =
    match STATUS_TO_CATEGORY !! tag c with
    | Some cat =>
        Ok (mkTestResult cat (tag c) (full_name tc) (A_message c) t (A_extra_text c))
    | None => Raise (KeyError (tag c))
    end.
Proof.
  intros Hc Ht. rewrite (A_first_child float_of_string tc c rest Hc), Ht. simpl.
  unfold getitem. by destruct (STATUS_TO_CATEGORY !! tag c).
Qed.

(** C9 (as amended): [TestRunner] reads status, message and extra text off
    the first child alone, whatever follows it, and looks the first child's
    tag up in [STATUS_TO_CATEGORY]: a tag among the four keys ["ok"],
    ["failure"], ["error"], ["skipped"] becomes the status, any other tag
    (["system-out"], say) raises [KeyError] instead of counting as
    ["ok"]. *)
Theorem first_child_decides (tc c : Element) (rest : list Element) (t : Float) :
  children tc = c :: rest ->
  py_float float_of_string (get tc "time") = Ok t ->
  (forall tc' rest', attrib tc' = attrib tc -> children tc' = c :: rest' ->
     TestRunner.testcase_result float_of_string tc' =
     TestRunner.testcase_result float_of_string tc) /\
  (str_in (tag c) ["ok"; "failure"; "error"; "skipped"] = true ->
   exists cat, STATUS_TO_CATEGORY !! tag c = Some cat /\
     TestRunner.testcase_result float_of_string tc =
       Ok (mkTestResult cat (tag c) (full_name tc) (A_message c) t (A_extra_text c))) /\
  (str_in (tag c) ["ok"; "failure"; "error"; "skipped"] = false ->
   TestRunner.testcase_result float_of_string tc = Raise (KeyError (tag c))).
Proof.
  intros Hc Ht. split; [| split].
  - intros tc' rest' Ha Hc'.
    assert (Hg : forall k, get tc' k = get tc k) by (intros k; unfold get; by rewrite Ha).
    rewrite (A_first_child float_of_string tc c rest Hc).
    rewrite (A_first_child float_of_string tc' c rest' Hc').
    unfold full_name. by rewrite !Hg.
  - intros Hin. rewrite (A_first_child_result tc c rest t Hc Ht).
    destruct (STATUS_TO_CATEGORY !! tag c) as [cat|] eqn:Hl; [eauto |].
    rewrite STATUS_TO_CATEGORY_lookup in Hl. unfold str_in in Hin. simpl in Hin.
    destruct (String.eqb (tag c) "ok"); [discriminate |].
    destruct (String.eqb (tag c) "failure"); [discriminate |].
    destruct (String.eqb (tag c) "error"); [discriminate |].
    destruct (String.eqb (tag c) "skipped"); discriminate.
  - intros Hin. rewrite (A_first_child_result tc c rest t Hc Ht).
    rewrite STATUS_TO_CATEGORY_lookup. unfold str_in in Hin. simpl in Hin.
    destruct (String.eqb (tag c) "ok"); [discriminate |].
    destruct (String.eqb (tag c) "failure"); [discriminate |].
    destruct (String.eqb (tag c) "error"); [discriminate |].
    destruct (String.eqb (tag c) "skipped"); [discriminate | reflexivity].
Qed.

(** *** The child loop of [NoseRunner] *)

Lemma child_step_outcome (st : NoseRunner.Outcome) (c : Element) :
  is_outcome c = true ->
  NoseRunner.child_step gettext st c =
    Ok (NoseRunner.mkOutcome
          (if String.eqb (tag c) "skipped" then SKIP else FAIL)
          (tag c) (A_message c)
          (NoseRunner.o_extras st ++ blocks_of gettext c)).
Proof.
  unfold is_outcome, NoseRunner.child_step, blocks_of, is_outcome, A_message.
  intros ->. f_equal. f_equal.
  - destruct (opt_bool (get c "type")), (str_bool (get_default c "message" "")); reflexivity.
  - unfold opt_bool, py_str. destruct (text c) as [t|]; [| by rewrite app_nil_r].
    destruct (str_bool t); [done | by rewrite app_nil_r].
Qed.

Lemma child_step_stream (st : NoseRunner.Outcome) (c : Element) :
  is_outcome c = false -> is_stream c = true ->
  NoseRunner.child_step gettext st c =
    match text c with
    | Some t =>
        Ok (NoseRunner.mkOutcome (NoseRunner.o_category st) (NoseRunner.o_status st)
              (NoseRunner.o_message st)
              (NoseRunner.o_extras st ++ [heading_of gettext c +:+ NL +:+ rstrip NL t]))
    | None => Raise AttributeError
    end.
Proof.
  unfold is_outcome, is_stream, NoseRunner.child_step, heading_of.
  intros -> ->. destruct (text c) as [t|]; simpl; [| done].
  destruct (String.eqb (tag c) "system-out"); by rewrite !str_app_assoc.
Qed.

Lemma child_step_other (st : NoseRunner.Outcome) (c : Element) :
  is_outcome c = false -> is_stream c = false ->
  NoseRunner.child_step gettext st c = Ok st.
Proof. unfold is_outcome, is_stream, NoseRunner.child_step. by intros -> ->. Qed.

(** A step that succeeds appends the blocks of the child, and leaves
    category, status and message alone unless the child is an outcome. *)
Lemma child_step_Ok_inv (st st' : NoseRunner.Outcome) (c : Element) :
  NoseRunner.child_step gettext st c = Ok st' ->
  NoseRunner.o_extras st' = NoseRunner.o_extras st ++ blocks_of gettext c /\
  (is_outcome c = false ->
   NoseRunner.o_category st' = NoseRunner.o_category st /\
   NoseRunner.o_status st' = NoseRunner.o_status st /\
   NoseRunner.o_message st' = NoseRunner.o_message st).
Proof.
  destruct (is_outcome c) eqn:Ho.
  - rewrite (child_step_outcome st c Ho). intros [= <-]. by simpl.
  - destruct (is_stream c) eqn:Hs.
    + rewrite (child_step_stream st c Ho Hs). unfold blocks_of. rewrite Ho, Hs.
      destruct (text c); [| discriminate]. intros [= <-]. by simpl.
    + rewrite (child_step_other st c Ho Hs). unfold blocks_of. rewrite Ho, Hs.
      intros [= <-]. by rewrite app_nil_r.
Qed.

Lemma child_loop_extras (cs : list Element) (st st' : NoseRunner.Outcome) :
  for_each (NoseRunner.child_step gettext) cs st = Ok st' ->
  NoseRunner.o_extras st' =
    NoseRunner.o_extras st ++ List.concat (map (blocks_of gettext) cs).
Proof.
  revert st. induction cs as [|c cs IH]; intros st; simpl.
  - intros [= <-]. by rewrite app_nil_r.
  - intros (st1 & H1 & Hrest)%bind_Ok_inv.
    apply child_step_Ok_inv in H1 as [H1 _]. rewrite (IH st1 Hrest), H1.
    by rewrite <- app_assoc.
Qed.

Lemma child_loop_no_outcome (cs : list Element) (st st' : NoseRunner.Outcome) :
  forallb (fun c => negb (is_outcome c)) cs = true ->
  for_each (NoseRunner.child_step gettext) cs st = Ok st' ->
  NoseRunner.o_category st' = NoseRunner.o_category st /\
  NoseRunner.o_status st' = NoseRunner.o_status st /\
  NoseRunner.o_message st' = NoseRunner.o_message st.
Proof.
  revert st. induction cs as [|c cs IH]; intros st; simpl.
  - by intros _ [= <-].
  - intros [Hc Hcs]%andb_prop (st1 & H1 & Hrest)%bind_Ok_inv.
    apply negb_true_iff in Hc.
    apply child_step_Ok_inv in H1 as [_ H1]. destruct (H1 Hc) as (F1 & F2 & F3).
    destruct (IH st1 Hcs Hrest) as (E1 & E2 & E3). by rewrite E1, E2, E3.
Qed.

Lemma for_each_app {X S : Type} (body : S -> X -> result S) (l1 l2 : list X) (s : S) :
  for_each body (l1 ++ l2) s = do s1 <- for_each body l1 s; for_each body l2 s1.
Proof.
  revert s. induction l1 as [|x l1 IH]; intros s; simpl; [done |].
  destruct (body s x); simpl; [apply IH | done].
Qed.

(** The last outcome child decides category, status and message. *)
Lemma child_loop_last_outcome (pre post : list Element) (c : Element)
    (st st' : NoseRunner.Outcome) :
  is_outcome c = true ->
  forallb (fun c => negb (is_outcome c)) post = true ->
  for_each (NoseRunner.child_step gettext) (pre ++ c :: post) st = Ok st' ->
  NoseRunner.o_category st' = (if String.eqb (tag c) "skipped" then SKIP else FAIL) /\
  NoseRunner.o_status st' = tag c /\
  NoseRunner.o_message st' = A_message c.
Proof.
  intros Ho Hpost. rewrite for_each_app. intros (s1 & _ & H)%bind_Ok_inv.
  simpl in H. rewrite (child_step_outcome s1 c Ho) in H. simpl in H.
  by destruct (child_loop_no_outcome post _ st' Hpost H) as (-> & -> & ->).
Qed.

(** The only exception the child loop raises is that of a stream child
    without text. *)
Lemma child_loop_stream_without_text (cs1 cs2 : list Element) (c : Element)
    (st : NoseRunner.Outcome) :
  is_stream c = true -> text c = None ->
  for_each (NoseRunner.child_step gettext) (cs1 ++ c :: cs2) st = Raise AttributeError.
Proof.
  intros Hs Ht. revert st. induction cs1 as [|d cs1 IH]; intros st; simpl.
  - assert (Ho : is_outcome c = false).
    { revert Hs. unfold is_stream, is_outcome, str_in. simpl.
      destruct (String.eqb_spec (tag c) "system-out") as [->|]; [done |].
      destruct (String.eqb_spec (tag c) "system-err") as [->|]; done. }
    by rewrite (child_step_stream st c Ho Hs), Ht.
  - destruct (NoseRunner.child_step gettext st d) as [st1|e] eqn:Hd; simpl; [apply IH |].
    revert Hd. unfold NoseRunner.child_step.
    destruct (str_in (tag d) ["error"; "failure"; "skipped"]); [discriminate |].
    destruct (str_in (tag d) ["system-out"; "system-err"]); [| discriminate].
    destruct (text d); simpl; congruence.
Qed.

(** C10: a [system-out] or [system-err] child without text makes
    [NoseRunner.load_data] raise [AttributeError] (the call of [rstrip] on
    [None]) instead of producing a record, once the test cases before
    it were read and the [time] of its test case was. *)
Theorem stream_without_text_raises (fs : gmap string FileEntry) (path : string)
    (root : Element) (pre : list Element) (tc : Element) (post : list Element)
    (cs1 : list Element) (c : Element) (cs2 : list Element) :
  fs !! path = Some (Document root) ->
  children root = pre ++ tc :: post ->
  Forall (fun y => exists r, NoseRunner.testcase_result float_of_string gettext y = Ok r)
         pre ->
  time_parses float_of_string tc = true ->
  children tc = cs1 ++ c :: cs2 ->
  is_stream c = true -> text c = None ->
  NoseRunner.load_data float_of_string gettext fs path = Raise AttributeError.
Proof.
  intros Hf Hch Hpre Ht Hcs Hs Htxt.
  apply (load_data_B_Raise fs path root AttributeError Hf).
  exists pre, tc, post. repeat split; [done | done |].
  apply time_parses_Ok in Ht as [f Hfl].
  unfold NoseRunner.testcase_result. rewrite Hfl, Hcs. simpl.
  by rewrite (child_loop_stream_without_text cs1 cs2 c _ Hs Htxt).
Qed.

Lemma A_message_typed (c : Element) (t expected : string) :
  get c "type" = Some t -> t <> "" ->
  ((exists m, get c "message" = Some m /\ m <> "" /\ expected = t +:+ ": " +:+ m) \/
   ((get c "message" = None \/ get c "message" = Some "") /\ expected = t)) ->
  A_message c = expected.
Proof.
  intros Ht Hne Hm. unfold A_message, get_default. rewrite Ht.
  assert (Hb : opt_bool (Some t) = true) by (by destruct t).
  rewrite Hb. simpl.
  destruct Hm as [(m & Hm & Hmne & ->) | [[Hm|Hm] ->]]; unfold get in Hm; rewrite Hm.
  - by destruct m.
  - done.
  - done.
Qed.

(** C5: in both runners the message of a record is made of the [type]
    and [message] attributes of the outcome child (for [TestRunner] the
    first child, for [NoseRunner] the last outcome child): with a type and
    a non-empty message it is ["<type>: <message>"], with a type and the
    message absent or empty it is the type alone.  A type counts as present
    when the attribute is there and not empty. *)
Theorem message_formatting (c : Element) (t expected : string) :
  get c "type" = Some t -> t <> "" ->
  ((exists m, get c "message" = Some m /\ m <> "" /\ expected = t +:+ ": " +:+ m) \/
   ((get c "message" = None \/ get c "message" = Some "") /\ expected = t)) ->
  (forall tc rest r,
     children tc = c :: rest ->
     TestRunner.testcase_result float_of_string tc = Ok r ->
     message r = expected) /\
  (forall tc pre post r,
     children tc = pre ++ c :: post ->
     is_outcome c = true ->
     forallb (fun d => negb (is_outcome d)) post = true ->
     NoseRunner.testcase_result float_of_string gettext tc = Ok r ->
     message r = expected).
Proof.
  intros Ht Hne Hm. pose proof (A_message_typed c t expected Ht Hne Hm) as HM.
  split.
  - intros tc rest r Hc Hr. rewrite (A_first_child float_of_string tc c rest Hc) in Hr.
    apply bind_Ok_inv in Hr as (f & _ & Hr).
    apply bind_Ok_inv in Hr as (cat & _ & [= <-]). by simpl.
  - intros tc pre post r Hc Ho Hpost Hr. unfold NoseRunner.testcase_result in Hr.
    apply bind_Ok_inv in Hr as (f & _ & Hr).
    apply bind_Ok_inv in Hr as (st & Hst & [= <-]). simpl.
    rewrite Hc in Hst.
    by destruct (child_loop_last_outcome pre post c _ st Ho Hpost Hst) as (_ & _ & ->).
Qed.

(** C6: [NoseRunner] joins, with a blank line between them and in the
    order of the children, the blocks the children contribute: a heading
    line and the text without trailing newlines for each [system-out] and
    [system-err] child, the text for an outcome child that has any.  In
    particular a test case made of a [skipped] child and a [system-out]
    child with text ["hello\n"], in either order, gives a record of
    category [SKIP] whose extra text contains the stdout heading line
    followed by ["hello"] without its newline. *)
Theorem extra_text_blocks :
  (forall tc r,
     NoseRunner.testcase_result float_of_string gettext tc = Ok r ->
     extra_text r =
       join (NL +:+ NL) (List.concat (map (blocks_of gettext) (children tc)))) /\
  (forall tc sk so t,
     py_float float_of_string (get tc "time") = Ok t ->
     tag sk = "skipped" -> tag so = "system-out" -> text so = Some ("hello" +:+ NL) ->
     children tc = [sk; so] \/ children tc = [so; sk] ->
     let block := "----- " +:+ gettext "Captured stdout" +:+ " -----" +:+ NL +:+ "hello" in
     exists r,
       NoseRunner.testcase_result float_of_string gettext tc = Ok r /\
       category r = SKIP /\
       contains (extra_text r) block /\
       (children tc = [sk; so] ->
        extra_text r = join (NL +:+ NL) (blocks_of gettext sk ++ [block])) /\
       (children tc = [so; sk] ->
        extra_text r = join (NL +:+ NL) (block :: blocks_of gettext sk))).
Proof.
  split.
  - intros tc r Hr. unfold NoseRunner.testcase_result in Hr.
    apply bind_Ok_inv in Hr as (f & _ & Hr).
    apply bind_Ok_inv in Hr as (st & Hst & [= <-]). simpl.
    by rewrite (child_loop_extras _ _ st Hst).
  - intros tc sk so t Ht Hsk Hso Htxt Hch block.
    assert (Hosk : is_outcome sk = true) by (unfold is_outcome; by rewrite Hsk).
    assert (Hoso : is_outcome so = false) by (unfold is_outcome; by rewrite Hso).
    assert (Hsso : is_stream so = true) by (unfold is_stream; by rewrite Hso).
    assert (Hbso : blocks_of gettext so = [block]).
    { unfold blocks_of, heading_of. rewrite Hoso, Hsso, Htxt, Hso. simpl.
      by rewrite !str_app_assoc. }
    assert (Hd : (sk :: so :: nil) <> (so :: sk :: nil)).
    { intros [= E _]. rewrite E, Hso in Hsk. discriminate. }
    destruct Hch as [Hch|Hch].
    + destruct (NoseRunner.testcase_result float_of_string gettext tc) as [r|e] eqn:Hr.
      2:{ exfalso. revert Hr. unfold NoseRunner.testcase_result. rewrite Ht, Hch. simpl.
          rewrite (child_step_outcome _ sk Hosk). simpl.
          rewrite (child_step_stream _ so Hoso Hsso), Htxt. simpl. discriminate. }
      exists r. split; [done |].
      assert (Hx : extra_text r = join (NL +:+ NL) (blocks_of gettext sk ++ [block])).
      { pose proof Hr as Hr'. unfold NoseRunner.testcase_result in Hr'.
        apply bind_Ok_inv in Hr' as (f & _ & Hr').
        apply bind_Ok_inv in Hr' as (st & Hst & [= <-]). simpl.
        rewrite (child_loop_extras _ _ st Hst), Hch. simpl.
        by rewrite Hbso, app_nil_r. }
      split; [| split; [| split]].
      * revert Hr. unfold NoseRunner.testcase_result. rewrite Ht, Hch. simpl.
        rewrite (child_step_outcome _ sk Hosk). simpl.
        rewrite (child_step_stream _ so Hoso Hsso), Htxt. simpl.
        intros [= <-]. simpl. by rewrite Hsk.
      * rewrite Hx. apply join_contains, in_app_iff. right. by left.
      * done.
      * intros E. rewrite E in Hch. by destruct Hd.
    + destruct (NoseRunner.testcase_result float_of_string gettext tc) as [r|e] eqn:Hr.
      2:{ exfalso. revert Hr. unfold NoseRunner.testcase_result. rewrite Ht, Hch. simpl.
          rewrite (child_step_stream _ so Hoso Hsso), Htxt. simpl.
          rewrite (child_step_outcome _ sk Hosk). simpl. discriminate. }
      exists r. split; [done |].
      assert (Hx : extra_text r = join (NL +:+ NL) (block :: blocks_of gettext sk)).
      { pose proof Hr as Hr'. unfold NoseRunner.testcase_result in Hr'.
        apply bind_Ok_inv in Hr' as (f & _ & Hr').
        apply bind_Ok_inv in Hr' as (st & Hst & [= <-]). simpl.
        rewrite (child_loop_extras _ _ st Hst), Hch. simpl.
        by rewrite Hbso, app_nil_r. }
      split; [| split; [| split]].
      * revert Hr. unfold NoseRunner.testcase_result. rewrite Ht, Hch. simpl.
        rewrite (child_step_stream _ so Hoso Hsso), Htxt. simpl.
        rewrite (child_step_outcome _ sk Hosk). simpl.
        intros [= <-]. simpl. by rewrite Hsk.
      * rewrite Hx. apply join_contains. by left.
      * intros E. rewrite E in Hch. by destruct Hd.
      * done.
Qed.

End Parsers.

(** ** Running the test process *)

Section Runs.
Context {Float : Type} (float_of_string : string -> Float + string).
Context (add_pathlist_to_PYTHONPATH : list string -> list string -> list string).

(** C8: with a framework name other than ["nose"] and ["py.test"],
    [start] raises the [ValueError] for an unknown framework (the
    specification's [ConfigurationError]) before any process is launched:
    [QProcess.start] has not been called, the process object is not
    running and has no program, and no file was removed. *)
Theorem start_unknown_framework (config : TestConfig) (pythonpath : option (list string))
    (w : TestRunner.World (Float := Float)) :
  framework config <> "nose" -> framework config <> "py.test" ->
  exists w',
    TestRunner.start add_pathlist_to_PYTHONPATH config pythonpath w =
      (Raise (ValueError "Unknown framework"), w') /\
    TestRunner.start_calls w' = TestRunner.start_calls w /\
    TestRunner.fs w' = TestRunner.fs w /\
    TestRunner.emitted w' = TestRunner.emitted w /\
    exists p, TestRunner.process w' = Some p /\ state p = NotRunning /\ program p = None.
Proof.
  intros Hn Hp. apply String.eqb_neq in Hn, Hp.
  unfold TestRunner.start. rewrite Hn, Hp.
  eexists. split; [reflexivity |]. simpl. repeat split.
  destruct pythonpath; eexists; (split; [reflexivity |]); by simpl.
Qed.

(** After a successful [start] the process runs and [self.finished] is
    the slot connected to its signal. *)
Lemma start_Ok (config : TestConfig) (pythonpath : option (list string))
    (w w' : TestRunner.World (Float := Float)) :
  TestRunner.start add_pathlist_to_PYTHONPATH config pythonpath w = (Ok tt, w') ->
  exists p, TestRunner.process w' = Some p /\ state p = Running /\
            finished_slots p = [SelfFinished] /\ kill_sent p = false /\
            TestRunner.emitted w' = TestRunner.emitted w.
Proof.
  unfold TestRunner.start.
  match goal with
  | |- context [TestRunner.assign_process ?q w] => set (p := q)
  end.
  assert (Hp : finished_slots p = [SelfFinished] /\ kill_sent p = false)
    by (subst p; by destruct pythonpath).
  clearbody p. destruct Hp as [Hsl Hk].
  destruct (String.eqb (framework config) "nose");
    [| destruct (String.eqb (framework config) "py.test"); [| discriminate]].
  all: cbv zeta; unfold TestRunner.os_remove; simpl;
    destruct (TestRunner.fs w !! TestRunner.resultfilename w); simpl;
    try destruct (removable (TestRunner.host w) (TestRunner.resultfilename w)); simpl;
    match goal with
    | |- context [startable ?h ?e] => destruct (startable h e)
    end; try discriminate.
  all: intros [= <-]; eexists; (split; [reflexivity |]); by simpl.
Qed.

(** C2 (as amended): [kill_if_running] on a running process asks for the
    process to be killed and emits nothing itself; no cancelled state is
    recorded and [self.finished] stays connected, so when the process exit
    is delivered afterwards, [finished] reads the result file: if
    [load_data] returns, [sig_finished] is emitted once, with the results
    read and the output captured; if [load_data] raises, the exception
    leaves [finished] and nothing is emitted. *)
Theorem kill_then_exit_emits_finished (w : TestRunner.World (Float := Float))
    (p : QProcess) :
  TestRunner.process w = Some p ->
  state p = Running ->
  finished_slots p = [SelfFinished] ->
  let w1 := TestRunner.kill_if_running w in
  TestRunner.process w1 = Some (kill p) /\
  TestRunner.emitted w1 = TestRunner.emitted w /\
  match TestRunner.load_data float_of_string (TestRunner.fs w)
          (TestRunner.resultfilename w) with
  | Ok testresults =>
      fst (TestRunner.process_exits float_of_string w1) = Ok tt /\
      TestRunner.emitted (snd (TestRunner.process_exits float_of_string w1)) =
        TestRunner.emitted w ++ [(testresults, standardOutput p)]
  | Raise e =>
      fst (TestRunner.process_exits float_of_string w1) = Raise e /\
      TestRunner.emitted (snd (TestRunner.process_exits float_of_string w1)) =
        TestRunner.emitted w
  end.
Proof.
  intros Hp Hs Hsl w1. subst w1. unfold TestRunner.kill_if_running.
  rewrite Hp, Hs. simpl. split; [done |]. split; [done |].
  unfold TestRunner.process_exits. simpl. rewrite Hs, Hsl. simpl.
  unfold TestRunner.finished. simpl.
  by destruct (TestRunner.load_data float_of_string (TestRunner.fs w)
                 (TestRunner.resultfilename w)) as [testresults|e].
Qed.

End Runs.

(** ** The properties at work on the sample data *)

Example decimal_reads :
  decimal "0.023" = inl (QArith_base.Qmake 23 1000) /\
  decimal "abc" = inr "could not convert string to float: 'abc'".
Proof. split; reflexivity. Qed.

(** The scenario of the specification: two records, in order. *)
Example scenario_A :
  TestRunner.load_data decimal sample_fs "unittest.results" =
    Ok [mkTestResult OK "ok" "TestA.test_one" "" (QArith_base.Qmake 1 100) "";
        mkTestResult FAIL "failure" "TestA.test_two" "ValueError: bad"
          (QArith_base.Qmake 2 100) "Traceback"].
Proof. vm_compute. reflexivity. Qed.

Example scenario_B :
  NoseRunner.load_data decimal (fun s => s) sample_fs "unittest.results" =
    Ok [mkTestResult OK "ok" "TestA.test_one" "" (QArith_base.Qmake 1 100) "";
        mkTestResult FAIL "failure" "TestA.test_two" "ValueError: bad"
          (QArith_base.Qmake 2 100) "Traceback"].
Proof. vm_compute. reflexivity. Qed.

Lemma load_data_missing_file_witness :
  (∅ : gmap string FileEntry) !! "unittest.results" = None /\
  TestRunner.load_data decimal ∅ "unittest.results" = Ok [] /\
  NoseRunner.load_data decimal (fun s => s) ∅ "unittest.results" = Ok [].
Proof.
  split; [reflexivity |].
  apply (load_data_missing_file decimal (fun s => s) ∅ "unittest.results").
  left. reflexivity.
Defined.

Lemma load_data_one_record_per_testcase_witness :
  well_formed_A decimal sample_suite = true /\
  well_formed_B decimal sample_suite = true /\
  (exists rs, TestRunner.load_data decimal sample_fs "unittest.results" = Ok rs /\
     length rs = 2 /\
     forall i tc, children sample_suite !! i = Some tc ->
       exists r, rs !! i = Some r /\ TestRunner.testcase_result decimal tc = Ok r /\
                 name r = full_name tc) /\
  (exists rs, NoseRunner.load_data decimal (fun s => s) sample_fs "unittest.results" = Ok rs /\
     length rs = 2 /\
     forall i tc, children sample_suite !! i = Some tc ->
       exists r, rs !! i = Some r /\
                 NoseRunner.testcase_result decimal (fun s => s) tc = Ok r /\
                 name r = full_name tc).
Proof.
  assert (Hf : sample_fs !! "unittest.results" = Some (Document sample_suite))
    by (vm_compute; reflexivity).
  assert (HA : well_formed_A decimal sample_suite = true) by (vm_compute; reflexivity).
  assert (HB : well_formed_B decimal sample_suite = true) by (vm_compute; reflexivity).
  destruct (load_data_one_record_per_testcase decimal (fun s => s)
              sample_fs "unittest.results" sample_suite Hf) as [H1 H2].
  split; [exact HA |]. split; [exact HB |]. split; [exact (H1 HA) | exact (H2 HB)].
Defined.

Lemma testcase_without_children_is_ok_witness :
  well_formed_A decimal sample_suite = true /\
  exists rs, TestRunner.load_data decimal sample_fs "unittest.results" = Ok rs /\
    forall i tc, children sample_suite !! i = Some tc -> children tc = [] ->
      exists r, rs !! i = Some r /\
        category r = OK /\ status r = "ok" /\ message r = "" /\ extra_text r = "".
Proof.
  assert (HA : well_formed_A decimal sample_suite = true) by (vm_compute; reflexivity).
  split; [exact HA |].
  apply (testcase_without_children_is_ok decimal sample_fs "unittest.results" sample_suite);
    [vm_compute; reflexivity | exact HA].
Defined.


Lemma message_formatting_witness :
  exists rA rB,
    TestRunner.testcase_result decimal (testcase "T" "t" "0.5" [boom_failure]) = Ok rA /\
    NoseRunner.testcase_result decimal (fun s => s)
      (testcase "T" "t" "0.5" [hello_out; boom_failure; hello_out]) = Ok rB /\
    message rA = "AssertionError: boom" /\ message rB = "AssertionError: boom".
Proof.
  eexists. eexists. split; [vm_compute; reflexivity |]. split; [vm_compute; reflexivity |].
  assert (Ht : get boom_failure "type" = Some "AssertionError") by (vm_compute; reflexivity).
  assert (Hm : get boom_failure "message" = Some "boom") by (vm_compute; reflexivity).
  assert (Hne : "AssertionError" <> "") by discriminate.
  assert (Hcase :
    (exists m, get boom_failure "message" = Some m /\ m <> "" /\
               "AssertionError: boom" = "AssertionError" +:+ ": " +:+ m) \/
    ((get boom_failure "message" = None \/ get boom_failure "message" = Some "") /\
     "AssertionError: boom" = "AssertionError")).
  { left. exists "boom". split; [exact Hm |]. split; [discriminate | reflexivity]. }
  destruct (message_formatting decimal (fun s => s) boom_failure
              "AssertionError" "AssertionError: boom" Ht Hne Hcase)
    as [HA HB].
  split.
  - eapply (HA (testcase "T" "t" "0.5" [boom_failure]) []); [reflexivity |].
    vm_compute. reflexivity.
  - eapply (HB (testcase "T" "t" "0.5" [hello_out; boom_failure; hello_out])
              [hello_out] [hello_out]); [reflexivity | reflexivity | reflexivity |].
    vm_compute. reflexivity.
Defined.

Lemma extra_text_blocks_witness :
  exists r,
    NoseRunner.testcase_result decimal (fun s => s)
      (testcase "T" "t" "0.5" [skipped_child; hello_out]) = Ok r /\
    category r = SKIP /\
    contains (extra_text r) ("----- Captured stdout -----" +:+ NL +:+ "hello") /\
    extra_text r =
      "SkipTest: later" +:+ NL +:+ NL +:+ "----- Captured stdout -----" +:+ NL +:+ "hello".
Proof.
  destruct (proj2 (extra_text_blocks decimal (fun s => s))
              (testcase "T" "t" "0.5" [skipped_child; hello_out])
              skipped_child hello_out (QArith_base.Qmake 5 10)
              ltac:(vm_compute; reflexivity) eq_refl eq_refl eq_refl
              (or_introl eq_refl))
    as (r & Hr & Hcat & Hin & Hex & _).
  exists r. split; [exact Hr |]. split; [exact Hcat |]. split; [exact Hin |].
  rewrite (Hex eq_refl). vm_compute. reflexivity.
Defined.

Lemma first_child_decides_witness :
  TestRunner.testcase_result decimal
    (testcase "T" "t" "0.5" [bare_error; hello_out]) =
    Ok (mkTestResult FAIL "error" "T.t" "KeyError" (QArith_base.Qmake 5 10) "Traceback") /\
  TestRunner.testcase_result decimal (testcase "T" "t" "0.5" [bare_error]) =
    TestRunner.testcase_result decimal (testcase "T" "t" "0.5" [bare_error; hello_out]) /\
  TestRunner.testcase_result decimal (testcase "T" "t" "0.5" [hello_out; bare_error]) =
    Raise (KeyError "system-out").
Proof.
  destruct (first_child_decides decimal
              (testcase "T" "t" "0.5" [bare_error; hello_out]) bare_error [hello_out]
              (QArith_base.Qmake 5 10) eq_refl ltac:(vm_compute; reflexivity))
    as (Hsame & Hin & _).
  destruct (first_child_decides decimal
              (testcase "T" "t" "0.5" [hello_out; bare_error]) hello_out [bare_error]
              (QArith_base.Qmake 5 10) eq_refl ltac:(vm_compute; reflexivity))
    as (_ & _ & Hout).
  split; [| split].
  - destruct (Hin eq_refl) as (cat & Hcat & ->).
    vm_compute in Hcat. injection Hcat as <-. vm_compute. reflexivity.
  - apply (Hsame (testcase "T" "t" "0.5" [bare_error]) []); reflexivity.
  - apply (Hout eq_refl).
Defined.

(** A first child tagged [ok] is none of [error], [failure], [skipped],
    yet the lookup succeeds and gives a record. *)
Lemma first_child_tagged_ok_is_looked_up :
  str_in (tag ok_child) ["error"; "failure"; "skipped"] = false /\
  TestRunner.testcase_result decimal (testcase "T" "t" "0.5" [ok_child]) =
    Ok (mkTestResult OK "ok" "T.t" "T" (QArith_base.Qmake 5 10) "x").
Proof. split; vm_compute; reflexivity. Qed.

Lemma stream_without_text_raises_witness :
  is_stream empty_out = true /\ text empty_out = None /\
  NoseRunner.load_data decimal (fun s => s)
    (results_file (element "testsuite" [] None
                     [testcase "T" "quick" "0.023" [];
                      testcase "T" "quiet" "0.5" [skipped_child; empty_out]]))
    "unittest.results" = Raise AttributeError.
Proof.
  split; [reflexivity |]. split; [reflexivity |].
  apply (stream_without_text_raises decimal (fun s => s) _ "unittest.results"
           (element "testsuite" [] None
              [testcase "T" "quick" "0.023" [];
               testcase "T" "quiet" "0.5" [skipped_child; empty_out]])
           [testcase "T" "quick" "0.023" []]
           (testcase "T" "quiet" "0.5" [skipped_child; empty_out]) []
           [skipped_child] empty_out []).
  - vm_compute. reflexivity.
  - reflexivity.
  - repeat constructor. eexists. vm_compute. reflexivity.
  - vm_compute. reflexivity.
  - reflexivity.
  - reflexivity.
  - reflexivity.
Defined.

Lemma start_unknown_framework_witness :
  exists w',
    TestRunner.start sample_add_pathlist (mkTestConfig "unittest" "/proj")
      (Some ["/proj/src"]) sample_world =
      (Raise (ValueError "Unknown framework"), w') /\
    TestRunner.start_calls w' = [] /\
    TestRunner.fs w' = ∅ /\
    TestRunner.emitted w' = [] /\
    exists p, TestRunner.process w' = Some p /\ state p = NotRunning /\ program p = None.
Proof.
  apply (start_unknown_framework sample_add_pathlist (mkTestConfig "unittest" "/proj")
           (Some ["/proj/src"]) sample_world); discriminate.
Defined.

Lemma kill_then_exit_emits_finished_witness :
  fst (TestRunner.start sample_add_pathlist sample_config (Some ["/proj/src"]) sample_world)
    = Ok tt /\
  TestRunner.emitted (TestRunner.kill_if_running started_world) = [] /\
  TestRunner.emitted
    (snd (TestRunner.process_exits decimal (TestRunner.kill_if_running started_world))) =
    [([], "")] /\
  fst (TestRunner.process_exits decimal
         (TestRunner.kill_if_running (TestRunner.child_writes Malformed started_world)))
    = Raise XMLSyntaxError /\
  TestRunner.emitted
    (snd (TestRunner.process_exits decimal
            (TestRunner.kill_if_running (TestRunner.child_writes Malformed started_world))))
    = [].
Proof.
  split; [vm_compute; reflexivity |].
  destruct (TestRunner.process started_world) as [p|] eqn:Hp; [| vm_compute in Hp; discriminate].
  assert (Hs : state p = Running) by (vm_compute in Hp; injection Hp as <-; reflexivity).
  assert (Hsl : finished_slots p = [SelfFinished])
    by (vm_compute in Hp; injection Hp as <-; reflexivity).
  assert (Hout : standardOutput p = "")
    by (vm_compute in Hp; injection Hp as <-; reflexivity).
  pose proof (kill_then_exit_emits_finished decimal started_world p Hp Hs Hsl)
    as (_ & He & Hex).
  assert (Hld : TestRunner.load_data decimal (TestRunner.fs started_world)
                  (TestRunner.resultfilename started_world) = Ok [])
    by (vm_compute; reflexivity).
  rewrite Hld in Hex. destruct Hex as [_ Hem].
  split; [exact He |]. split; [rewrite Hem, Hout; reflexivity |].
  assert (Hp' : TestRunner.process (TestRunner.child_writes Malformed started_world) = Some p)
    by exact Hp.
  pose proof (kill_then_exit_emits_finished decimal
                (TestRunner.child_writes Malformed started_world) p Hp' Hs Hsl)
    as (_ & _ & Hex').
  assert (Hld' : TestRunner.load_data decimal
                   (TestRunner.fs (TestRunner.child_writes Malformed started_world))
                   (TestRunner.resultfilename
                      (TestRunner.child_writes Malformed started_world))
                 = Raise XMLSyntaxError)
    by (vm_compute; reflexivity).
  rewrite Hld' in Hex'. exact Hex'.
Defined.

(** The run is cancelled while the process runs, the process exits, and
    [sig_finished] is emitted all the same. *)
Lemma cancelled_run_still_emits_finished :
  (exists p, TestRunner.process started_world = Some p /\ state p = Running) /\
  TestRunner.emitted started_world = [] /\
  TestRunner.emitted
    (snd (TestRunner.process_exits decimal (TestRunner.kill_if_running started_world))) <> [].
Proof.
  split; [eexists; split; vm_compute; reflexivity |].
  split; [vm_compute; reflexivity |]. vm_compute. discriminate.
Qed.

(** * Further properties *)

(** ** Records of both runners *)

Lemma for_each_ext_in {X S : Type} (f g : S -> X -> result S) (l : list X) (s : S) :
  (forall x, In x l -> forall s', f s' x = g s' x) ->
  for_each f l s = for_each g l s.
Proof.
  revert s. induction l as [|x l IH]; intros s H; simpl; [done |].
  rewrite (H x (or_introl eq_refl) s). destruct (g s x); simpl; [| done].
  apply IH. intros y Hy. apply H. by right.
Qed.

Lemma is_outcome_inv (c : Element) :
  is_outcome c = true -> tag c = "error" \/ tag c = "failure" \/ tag c = "skipped".
Proof.
  unfold is_outcome, str_in. simpl.
  destruct (String.eqb_spec (tag c) "error"); [auto |].
  destruct (String.eqb_spec (tag c) "failure"); [auto |].
  destruct (String.eqb_spec (tag c) "skipped"); [auto | discriminate].
Qed.

Lemma read_data_inv (fs : gmap string FileEntry) (path : string) (data : list Element) :
  read_data fs path = Ok data ->
  data = [] \/ exists root, fs !! path = Some (Document root) /\ data = children root.
Proof.
  unfold read_data, etree_parse. destruct (fs !! path) as [[| |root]|]; intros [= <-]; eauto.
Qed.

Section MoreParsers.
Context {Float : Type} (float_of_string : string -> Float + string).
Context (gettext : string -> string).

Lemma child_loop_other (cs : list Element) (st : NoseRunner.Outcome) :
  forallb (fun d => negb (is_outcome d) && negb (is_stream d)) cs = true ->
  for_each (NoseRunner.child_step gettext) cs st = Ok st.
Proof.
  induction cs as [|c cs IH]; simpl; [done |].
  intros [[Ho Hs]%andb_prop Hcs]%andb_prop.
  apply negb_true_iff in Ho, Hs.
  rewrite (child_step_other gettext st c Ho Hs). simpl. by apply IH.
Qed.

Lemma plain_testcase_agree (tc : Element) :
  plain_testcase tc = true ->
  TestRunner.testcase_result float_of_string tc =
  NoseRunner.testcase_result float_of_string gettext tc.
Proof.
  unfold plain_testcase. destruct (children tc) as [|c rest] eqn:Hch.
  - intros _. rewrite (A_no_child float_of_string tc Hch).
    unfold NoseRunner.testcase_result. rewrite Hch.
    destruct (py_float _ _); reflexivity.
  - intros [Ho Hrest]%andb_prop. rewrite (A_first_child float_of_string tc c rest Hch).
    unfold NoseRunner.testcase_result. rewrite Hch.
    destruct (py_float _ _) as [t|e]; simpl; [| done].
    rewrite (child_step_outcome gettext _ c Ho). simpl.
    rewrite (child_loop_other rest _ Hrest). simpl.
    assert (Hx : join (NL +:+ NL) (blocks_of gettext c) = A_extra_text c).
    { unfold blocks_of, A_extra_text. rewrite Ho.
      destruct (text c) as [x|]; [| done]. by destruct (str_bool x). }
    rewrite Hx. unfold getitem. rewrite STATUS_TO_CATEGORY_lookup.
    destruct (is_outcome_inv c Ho) as [-> | [-> | ->]]; reflexivity.
Qed.

(** X1: on a result file whose test cases have no children, or an outcome
    child first and no outcome or stream child after it, the two runners
    return the same thing: the same records, or the same exception. *)
Theorem runners_agree_on_plain_files (fs : gmap string FileEntry) (path : string) :
  (forall root, fs !! path = Some (Document root) ->
     forallb plain_testcase (children root) = true) ->
  TestRunner.load_data float_of_string fs path =
  NoseRunner.load_data float_of_string gettext fs path.
Proof.
  intros Hplain. unfold TestRunner.load_data, NoseRunner.load_data.
  destruct (read_data fs path) as [data|e] eqn:Hd; simpl; [| done].
  apply for_each_ext_in. intros tc Hin acc.
  destruct (read_data_inv fs path data Hd) as [-> | (root & Hf & ->)]; [done |].
  specialize (Hplain root Hf). rewrite forallb_forall in Hplain.
  by rewrite (plain_testcase_agree tc (Hplain tc Hin)).
Qed.

(** Every record a loader returns is the record of some test case. *)
Lemma load_data_A_records (fs : gmap string FileEntry) (path : string)
    (rs : list (TestResult Float)) :
  TestRunner.load_data float_of_string fs path = Ok rs ->
  Forall (fun r => exists tc, TestRunner.testcase_result float_of_string tc = Ok r) rs.
Proof.
  unfold TestRunner.load_data. intros (data & _ & H)%bind_Ok_inv.
  apply for_each_append_Ok in H as (rs' & -> & HF). simpl.
  induction HF; constructor; eauto.
Qed.

Lemma load_data_B_records (fs : gmap string FileEntry) (path : string)
    (rs : list (TestResult Float)) :
  NoseRunner.load_data float_of_string gettext fs path = Ok rs ->
  Forall (fun r => exists tc,
            NoseRunner.testcase_result float_of_string gettext tc = Ok r) rs.
Proof.
  unfold NoseRunner.load_data. intros (data & _ & H)%bind_Ok_inv.
  apply for_each_append_Ok in H as (rs' & -> & HF). simpl.
  induction HF; constructor; eauto.
Qed.

(** The child loop of [NoseRunner] keeps category and status in step with
    the table. *)
Lemma child_loop_category (cs : list Element) (st st' : NoseRunner.Outcome) :
  STATUS_TO_CATEGORY !! NoseRunner.o_status st = Some (NoseRunner.o_category st) ->
  for_each (NoseRunner.child_step gettext) cs st = Ok st' ->
  STATUS_TO_CATEGORY !! NoseRunner.o_status st' = Some (NoseRunner.o_category st').
Proof.
  revert st. induction cs as [|c cs IH]; intros st Hinv; simpl.
  - by intros [= <-].
  - intros (st1 & H1 & Hrest)%bind_Ok_inv. apply (IH st1); [| done].
    destruct (is_outcome c) eqn:Ho.
    + rewrite (child_step_outcome gettext st c Ho) in H1. injection H1 as <-. simpl.
      rewrite STATUS_TO_CATEGORY_lookup.
      destruct (is_outcome_inv c Ho) as [-> | [-> | ->]]; reflexivity.
    + apply child_step_Ok_inv in H1 as [_ H1]. destruct (H1 Ho) as (-> & -> & _). done.
Qed.

(** X2: in every record either runner returns, the category is the one
    [STATUS_TO_CATEGORY] gives for the status (so the status is one of the
    four keys), although [NoseRunner] never consults the table. *)
Theorem category_follows_status (fs : gmap string FileEntry) (path : string)
    (rs : list (TestResult Float)) (r : TestResult Float) :
  TestRunner.load_data float_of_string fs path = Ok rs \/
  NoseRunner.load_data float_of_string gettext fs path = Ok rs ->
  In r rs ->
  STATUS_TO_CATEGORY !! status r = Some (category r).
Proof.
  intros [H|H] Hin.
  - apply load_data_A_records in H. rewrite Forall_forall in H.
    destruct (H r (proj2 (list_elem_of_In _ _) Hin)) as (tc & Hr).
    unfold TestRunner.testcase_result in Hr.
    apply bind_Ok_inv in Hr as (t & _ & Hr).
    destruct (children tc) as [|c ?]; simpl in Hr;
      apply bind_Ok_inv in Hr as (cat & Hcat & [= <-]); simpl;
      unfold getitem in Hcat;
      match type of Hcat with
      | context [STATUS_TO_CATEGORY !! ?k] => destruct (STATUS_TO_CATEGORY !! k)
      end; congruence.
  - apply load_data_B_records in H. rewrite Forall_forall in H.
    destruct (H r (proj2 (list_elem_of_In _ _) Hin)) as (tc & Hr).
    unfold NoseRunner.testcase_result in Hr.
    apply bind_Ok_inv in Hr as (t & _ & Hr).
    apply bind_Ok_inv in Hr as (st & Hst & [= <-]). simpl.
    eapply child_loop_category; [| exact Hst].
    simpl. by rewrite STATUS_TO_CATEGORY_lookup.
Qed.

(** X3: the i-th record either runner returns is named after the i-th
    test case of the file: its [classname] attribute, a dot, and its [name]
    attribute, an attribute that is missing being written [None]; so a
    name is never empty. *)
Theorem record_name_is_classname_dot_name (fs : gmap string FileEntry) (path : string)
    (rs : list (TestResult Float)) (i : nat) (r : TestResult Float) :
  TestRunner.load_data float_of_string fs path = Ok rs \/
  NoseRunner.load_data float_of_string gettext fs path = Ok rs ->
  rs !! i = Some r ->
  exists root tc,
    fs !! path = Some (Document root) /\ children root !! i = Some tc /\
    name r = py_str (get tc "classname") +:+ "." +:+ py_str (get tc "name") /\
    (get tc "classname" = None -> name r = "None." +:+ py_str (get tc "name")) /\
    (get tc "name" = None -> name r = py_str (get tc "classname") +:+ ".None") /\
    name r <> "".
Proof.
  intros H Hi.
  assert (Hroot : exists root, fs !! path = Some (Document root)).
  { destruct (fs !! path) as [[| |root]|] eqn:Hf; [| | eauto |].
    all: exfalso; destruct H as [H|H]; revert H;
      unfold TestRunner.load_data, NoseRunner.load_data, read_data, etree_parse;
      rewrite Hf; simpl; try discriminate; intros [= <-]; discriminate. }
  destruct Hroot as (root & Hf). exists root.
  assert (Hn : exists tc, children root !! i = Some tc /\ name r = full_name tc).
  { destruct H as [H|H].
    - apply (load_data_A_Ok float_of_string fs path root rs Hf) in H.
      destruct (Forall2_lookup_r _ _ _ _ _ H Hi) as (tc & Htc & Hr). exists tc.
      split; [done |]. unfold TestRunner.testcase_result in Hr.
      apply bind_Ok_inv in Hr as (t & _ & Hr).
      destruct (children tc) as [|c ?]; simpl in Hr;
        apply bind_Ok_inv in Hr as (cat & _ & [= <-]); reflexivity.
    - apply (load_data_B_Ok float_of_string gettext fs path root rs Hf) in H.
      destruct (Forall2_lookup_r _ _ _ _ _ H Hi) as (tc & Htc & Hr). exists tc.
      split; [done |]. unfold NoseRunner.testcase_result in Hr.
      apply bind_Ok_inv in Hr as (t & _ & Hr).
      apply bind_Ok_inv in Hr as (st & _ & [= <-]). reflexivity. }
  destruct Hn as (tc & Htc & ->). exists tc. unfold full_name.
  split; [done |]. split; [done |]. split; [done |].
  split; [by intros -> |]. split; [by intros -> |].
  destruct (py_str (get tc "classname")); discriminate.
Qed.

(** X4: a test case without [time] attribute makes both loaders raise
    [TypeError] ([float(None)]) once the test cases before it were read. *)
Theorem missing_time_raises_TypeError (fs : gmap string FileEntry) (path : string)
    (root : Element) (pre : list Element) (tc : Element) (post : list Element) :
  fs !! path = Some (Document root) ->
  children root = pre ++ tc :: post ->
  get tc "time" = None ->
  (Forall (fun y => exists r, TestRunner.testcase_result float_of_string y = Ok r) pre ->
   TestRunner.load_data float_of_string fs path = Raise TypeError) /\
  (Forall (fun y => exists r, NoseRunner.testcase_result float_of_string gettext y = Ok r)
          pre ->
   NoseRunner.load_data float_of_string gettext fs path = Raise TypeError).
Proof.
  intros Hf Hch Ht.
  assert (Hpf : py_float float_of_string (get tc "time") = Raise TypeError)
    by (by rewrite Ht).
  destruct (testcase_bad_time float_of_string gettext tc TypeError Hpf) as [HA HB].
  split; intros Hpre.
  - apply (load_data_A_Raise float_of_string fs path root TypeError Hf).
    by exists pre, tc, post.
  - apply (load_data_B_Raise float_of_string gettext fs path root TypeError Hf).
    by exists pre, tc, post.
Qed.

(** X5: a loader returns records only if every test case can be read;
    otherwise it returns none, not even those of the test cases before the
    bad one, and raises what the first bad test case raises. *)
Theorem first_bad_testcase_aborts (fs : gmap string FileEntry) (path : string)
    (root : Element) :
  fs !! path = Some (Document root) ->
  ((exists rs, TestRunner.load_data float_of_string fs path = Ok rs) <->
   Forall (fun y => exists r, TestRunner.testcase_result float_of_string y = Ok r)
          (children root)) /\
  ((exists rs, NoseRunner.load_data float_of_string gettext fs path = Ok rs) <->
   Forall (fun y => exists r, NoseRunner.testcase_result float_of_string gettext y = Ok r)
          (children root)) /\
  (forall pre tc post e,
     children root = pre ++ tc :: post ->
     Forall (fun y => exists r, TestRunner.testcase_result float_of_string y = Ok r) pre ->
     TestRunner.testcase_result float_of_string tc = Raise e ->
     TestRunner.load_data float_of_string fs path = Raise e) /\
  (forall pre tc post e,
     children root = pre ++ tc :: post ->
     Forall (fun y => exists r, NoseRunner.testcase_result float_of_string gettext y = Ok r)
            pre ->
     NoseRunner.testcase_result float_of_string gettext tc = Raise e ->
     NoseRunner.load_data float_of_string gettext fs path = Raise e).
Proof.
  intros Hf. split; [| split; [| split]].
  - split.
    + intros (rs & H). apply (load_data_A_Ok float_of_string fs path root rs Hf) in H.
      induction H; constructor; eauto.
    + intros H. destruct (Forall_Ok_Forall2 _ _ H) as (rs & HF). exists rs.
      by apply (load_data_A_Ok float_of_string fs path root rs Hf).
  - split.
    + intros (rs & H).
      apply (load_data_B_Ok float_of_string gettext fs path root rs Hf) in H.
      induction H; constructor; eauto.
    + intros H. destruct (Forall_Ok_Forall2 _ _ H) as (rs & HF). exists rs.
      by apply (load_data_B_Ok float_of_string gettext fs path root rs Hf).
  - intros pre tc post e Hch Hpre Hr.
    apply (load_data_A_Raise float_of_string fs path root e Hf). by exists pre, tc, post.
  - intros pre tc post e Hch Hpre Hr.
    apply (load_data_B_Raise float_of_string gettext fs path root e Hf).
    by exists pre, tc, post.
Qed.

Lemma child_loop_filter (cs : list Element) (st : NoseRunner.Outcome) :
  for_each (NoseRunner.child_step gettext)
    (List.filter (fun c => is_outcome c || is_stream c) cs) st =
  for_each (NoseRunner.child_step gettext) cs st.
Proof.
  revert st. induction cs as [|c cs IH]; intros st; simpl; [done |].
  destruct (is_outcome c) eqn:Ho; simpl.
  - destruct (NoseRunner.child_step gettext st c); simpl; [apply IH | done].
  - destruct (is_stream c) eqn:Hs; simpl.
    + destruct (NoseRunner.child_step gettext st c); simpl; [apply IH | done].
    + rewrite (child_step_other gettext st c Ho Hs). simpl. apply IH.
Qed.

(** X6: [NoseRunner] ignores children that are neither outcome nor stream
    elements: leaving them out of a test case changes nothing. *)
Theorem unknown_children_are_ignored (tc : Element) :
  NoseRunner.testcase_result float_of_string gettext
    (with_children tc (List.filter (fun c => is_outcome c || is_stream c) (children tc))) =
  NoseRunner.testcase_result float_of_string gettext tc.
Proof.
  unfold NoseRunner.testcase_result, with_children, get. simpl.
  by rewrite child_loop_filter.
Qed.

(** X7: a test case without outcome child, whose stream children have
    text, is read by [NoseRunner] as [OK] with status ["ok"] and empty
    message; its extra text is made of the stream blocks alone. *)
Theorem no_outcome_child_is_ok (tc : Element) (t : Float) :
  py_float float_of_string (get tc "time") = Ok t ->
  forallb (fun c => negb (is_outcome c)) (children tc) = true ->
  forallb (fun c => if is_stream c
                    then match text c with Some _ => true | None => false end
                    else true) (children tc) = true ->
  NoseRunner.testcase_result float_of_string gettext tc =
    Ok (mkTestResult OK "ok" (full_name tc) "" t
          (join (NL +:+ NL) (List.concat (map (blocks_of gettext) (children tc))))).
Proof.
  intros Ht Hno Htxt. unfold NoseRunner.testcase_result. rewrite Ht. simpl.
  destruct (child_loop_Ok gettext (children tc) (NoseRunner.mkOutcome OK "ok" "" []) Htxt)
    as (st & Hst).
  rewrite Hst. simpl.
  destruct (child_loop_no_outcome gettext (children tc) _ st Hno Hst) as (-> & -> & ->).
  by rewrite (child_loop_extras gettext (children tc) _ st Hst).
Qed.

(** X8: with several outcome children the last one decides category and
    status: a [failure] followed by a [skipped] child is reported as
    skipped. *)
Theorem last_outcome_child_wins (tc : Element) (pre : list Element) (c : Element)
    (post : list Element) (r : TestResult Float) :
  children tc = pre ++ c :: post ->
  is_outcome c = true ->
  forallb (fun d => negb (is_outcome d)) post = true ->
  NoseRunner.testcase_result float_of_string gettext tc = Ok r ->
  status r = tag c /\
  category r = (if String.eqb (tag c) "skipped" then SKIP else FAIL).
Proof.
  intros Hch Ho Hpost Hr. unfold NoseRunner.testcase_result in Hr.
  apply bind_Ok_inv in Hr as (t & _ & Hr).
  apply bind_Ok_inv in Hr as (st & Hst & [= <-]). simpl. rewrite Hch in Hst.
  by destruct (child_loop_last_outcome gettext pre post c _ st Ho Hpost Hst) as (-> & -> & _).
Qed.

Lemma is_stream_not_outcome (c : Element) : is_stream c = true -> is_outcome c = false.
Proof.
  unfold is_stream, is_outcome, str_in. simpl.
  destruct (String.eqb_spec (tag c) "system-out") as [->|]; [done |].
  destruct (String.eqb_spec (tag c) "system-err") as [->|]; done.
Qed.

(** X9: the block of a stream child is its heading line followed by the
    text cut before its trailing newlines: what is cut consists of newlines
    only and what is kept does not end with one. *)
Theorem stream_block_is_stripped (tc c : Element) (t : string) (secs : Float) :
  py_float float_of_string (get tc "time") = Ok secs ->
  children tc = [c] -> is_stream c = true -> text c = Some t ->
  exists contents cut : string,
    t = contents +:+ cut /\ only_newlines cut = true /\
    (forall kept a, contents = kept +:+ String a "" -> char_in a NL = false) /\
    NoseRunner.testcase_result float_of_string gettext tc =
      Ok (mkTestResult OK "ok" (full_name tc) "" secs
            (heading_of gettext c +:+ NL +:+ contents)).
Proof.
  intros Ht Hch Hs Htxt.
  destruct (rstrip_suffix NL t) as (cut & Hcut & Hall).
  exists (rstrip NL t), cut. split; [done |]. split; [done |].
  split; [intros kept a; apply rstrip_last |].
  unfold NoseRunner.testcase_result. rewrite Ht, Hch. simpl.
  rewrite (child_step_stream gettext _ c (is_stream_not_outcome c Hs) Hs), Htxt.
  reflexivity.
Qed.

End MoreParsers.

(** ** Runs of [TestRunner] *)

Section MoreRuns.
Context {Float : Type} (float_of_string : string -> Float + string).
Context (add_pathlist_to_PYTHONPATH : list string -> list string -> list string).

(** What [start] does for the two frameworks it knows. *)
Lemma start_known (config : TestConfig) (pythonpath : option (list string))
    (w : TestRunner.World (Float := Float)) (exe : string) (args : list string) :
  (framework config = "nose" /\ exe = "nosetests" /\
   args = ["--with-xunit"; "--xunit-file=" +:+ TestRunner.resultfilename w]) \/
  (framework config = "py.test" /\ exe = "py.test" /\
   args = ["--junit-xml"; TestRunner.resultfilename w]) ->
  let exe' := if String.eqb (os_name (TestRunner.host w)) "nt"
              then exe +:+ ".exe" else exe in
  let running := startable (TestRunner.host w) exe' in
  exists p,
    finished_slots p = [SelfFinished] /\ kill_sent p = false /\ standardOutput p = "" /\
    channelMode p = MergedChannels /\ workingDirectory p = wdir config /\
    TestRunner.start add_pathlist_to_PYTHONPATH config pythonpath w =
      (if running then Ok tt else Raise RuntimeError,
       TestRunner.mkWorld (TestRunner.host w) (TestRunner.resultfilename w)
         (Some (process_start exe' args running p))
         (if removable (TestRunner.host w) (TestRunner.resultfilename w)
          then delete (TestRunner.resultfilename w) (TestRunner.fs w)
          else TestRunner.fs w)
         (TestRunner.start_calls w ++ [(exe', args)]) (TestRunner.emitted w)
         (TestRunner.replaced w ++
            match TestRunner.process w with Some q => [q] | None => [] end)).
Proof.
  intros Hfw exe' running. unfold TestRunner.start.
  match goal with
  | |- context [TestRunner.assign_process ?q w] => set (p := q)
  end.
  exists p.
  assert (Hp : finished_slots p = [SelfFinished] /\ kill_sent p = false /\
               standardOutput p = "" /\ channelMode p = MergedChannels /\
               workingDirectory p = wdir config)
    by (subst p; by destruct pythonpath).
  destruct Hp as (? & ? & ? & ? & ?). repeat (split; [done |]).
  clearbody p.
  assert (Hrm : snd (TestRunner.os_remove (TestRunner.resultfilename w)
                       (TestRunner.assign_process p w)) =
                TestRunner.mkWorld (TestRunner.host w) (TestRunner.resultfilename w)
                  (Some p)
                  (if removable (TestRunner.host w) (TestRunner.resultfilename w)
                   then delete (TestRunner.resultfilename w) (TestRunner.fs w)
                   else TestRunner.fs w)
                  (TestRunner.start_calls w) (TestRunner.emitted w)
                  (TestRunner.replaced w ++
                     match TestRunner.process w with Some q => [q] | None => [] end)).
  { unfold TestRunner.os_remove. simpl.
    destruct (TestRunner.fs w !! TestRunner.resultfilename w) eqn:Hl;
      destruct (removable (TestRunner.host w) (TestRunner.resultfilename w)); try done.
    simpl. by rewrite (delete_id _ _ Hl). }
  destruct Hfw as [(Hfw & -> & ->) | (Hfw & -> & ->)]; rewrite Hfw; cbv zeta;
    simpl TestRunner.resultfilename; simpl TestRunner.host;
    rewrite Hrm; simpl; subst exe' running;
    destruct (String.eqb (os_name (TestRunner.host w)) "nt");
    match goal with
    | |- context [startable ?h ?e] => destruct (startable h e)
    end; reflexivity.
Qed.

(** X10: for ["nose"] and ["py.test"], [start] hands Qt the executable
    with the arguments that name the result file, [.exe] being appended on
    Windows; the process has merged channels and the working directory of
    the configuration.  This holds whether or not the process then starts. *)
Theorem start_command_line (config : TestConfig) (pythonpath : option (list string))
    (w : TestRunner.World (Float := Float)) (exe : string) (args : list string) :
  (framework config = "nose" /\ exe = "nosetests" /\
   args = ["--with-xunit"; "--xunit-file=" +:+ TestRunner.resultfilename w]) \/
  (framework config = "py.test" /\ exe = "py.test" /\
   args = ["--junit-xml"; TestRunner.resultfilename w]) ->
  let w' := snd (TestRunner.start add_pathlist_to_PYTHONPATH config pythonpath w) in
  let exe' := if String.eqb (os_name (TestRunner.host w)) "nt"
              then exe +:+ ".exe" else exe in
  TestRunner.start_calls w' = TestRunner.start_calls w ++ [(exe', args)] /\
  exists p, TestRunner.process w' = Some p /\
    program p = Some (exe', args) /\
    channelMode p = MergedChannels /\ workingDirectory p = wdir config.
Proof.
  intros Hfw. destruct (start_known config pythonpath w exe args Hfw)
    as (p & _ & _ & _ & Hc & Hw & ->).
  simpl. split; [done |]. eexists. split; [reflexivity |]. by simpl.
Qed.

(** X11: a successful [start] has removed the result file of an earlier
    run when [os.remove] can remove it (or there was none): if the child
    then exits without writing one, [sig_finished] carries the empty list
    and the output.  When [os.remove] fails on the existing file the error
    is dropped and the file stays, so the exit reports the earlier results
    once more. *)
Theorem stale_results_are_not_reported (config : TestConfig)
    (pythonpath : option (list string)) (w w1 : TestRunner.World (Float := Float))
    (out : string) :
  TestRunner.start add_pathlist_to_PYTHONPATH config pythonpath w = (Ok tt, w1) ->
  (TestRunner.fs w !! TestRunner.resultfilename w = None \/
   removable (TestRunner.host w) (TestRunner.resultfilename w) = true ->
   TestRunner.fs w1 = delete (TestRunner.resultfilename w) (TestRunner.fs w) /\
   fst (TestRunner.process_exits float_of_string (TestRunner.child_prints out w1)) = Ok tt /\
   TestRunner.emitted
     (snd (TestRunner.process_exits float_of_string (TestRunner.child_prints out w1))) =
     TestRunner.emitted w ++ [([], out)]) /\
  (forall rs,
     removable (TestRunner.host w) (TestRunner.resultfilename w) = false ->
     TestRunner.load_data float_of_string (TestRunner.fs w) (TestRunner.resultfilename w)
       = Ok rs ->
     TestRunner.fs w1 = TestRunner.fs w /\
     TestRunner.emitted
       (snd (TestRunner.process_exits float_of_string (TestRunner.child_prints out w1))) =
       TestRunner.emitted w ++ [(rs, out)]).
Proof.
  intros Hst.
  assert (Hfw : exists exe args,
    (framework config = "nose" /\ exe = "nosetests" /\
     args = ["--with-xunit"; "--xunit-file=" +:+ TestRunner.resultfilename w]) \/
    (framework config = "py.test" /\ exe = "py.test" /\
     args = ["--junit-xml"; TestRunner.resultfilename w])).
  { revert Hst. unfold TestRunner.start.
    destruct (String.eqb_spec (framework config) "nose") as [->|];
      [intros _; eexists _, _; left; eauto |].
    destruct (String.eqb_spec (framework config) "py.test") as [->|];
      [intros _; eexists _, _; right; eauto | discriminate]. }
  destruct Hfw as (exe & args & Hfw).
  destruct (start_known config pythonpath w exe args Hfw)
    as (p & Hsl & _ & Hout & _ & _ & Heq).
  rewrite Hst in Heq.
  match type of Heq with
  | context [startable ?h ?e] => destruct (startable h e); [| discriminate]
  end.
  injection Heq as ->. simpl. split.
  - intros Hrm.
    assert (Hfs : (if removable (TestRunner.host w) (TestRunner.resultfilename w)
                   then delete (TestRunner.resultfilename w) (TestRunner.fs w)
                   else TestRunner.fs w) =
                  delete (TestRunner.resultfilename w) (TestRunner.fs w)).
    { destruct Hrm as [Hno | ->]; [| done].
      destruct (removable _ _); [done |]. by rewrite (delete_id _ _ Hno). }
    rewrite Hfs. split; [done |].
    unfold TestRunner.process_exits, TestRunner.child_prints. simpl. rewrite Hsl. simpl.
    unfold TestRunner.finished. simpl.
    assert (Hld : TestRunner.load_data float_of_string
                    (delete (TestRunner.resultfilename w) (TestRunner.fs w))
                    (TestRunner.resultfilename w) = Ok []).
    { unfold TestRunner.load_data.
      rewrite (read_data_absent _ _ (or_introl (lookup_delete_eq _ _))). reflexivity. }
    rewrite Hld. simpl. by rewrite Hout.
  - intros rs -> Hld. split; [done |].
    unfold TestRunner.process_exits, TestRunner.child_prints. simpl. rewrite Hsl. simpl.
    unfold TestRunner.finished. simpl. rewrite Hld. simpl. by rewrite Hout.
Qed.

(** X12: when the executable does not start, [start] raises
    [RuntimeError] after the call of [QProcess.start], which is on record;
    the process object is not running, nothing is emitted, and
    [kill_if_running] then does nothing. *)
Theorem start_failed_launch (config : TestConfig) (pythonpath : option (list string))
    (w : TestRunner.World (Float := Float)) (exe : string) (args : list string) :
  (framework config = "nose" /\ exe = "nosetests" /\
   args = ["--with-xunit"; "--xunit-file=" +:+ TestRunner.resultfilename w]) \/
  (framework config = "py.test" /\ exe = "py.test" /\
   args = ["--junit-xml"; TestRunner.resultfilename w]) ->
  let exe' := if String.eqb (os_name (TestRunner.host w)) "nt"
              then exe +:+ ".exe" else exe in
  startable (TestRunner.host w) exe' = false ->
  exists w',
    TestRunner.start add_pathlist_to_PYTHONPATH config pythonpath w = (Raise RuntimeError, w') /\
    (exists p, TestRunner.process w' = Some p /\ state p = NotRunning /\
               program p = Some (exe', args)) /\
    TestRunner.start_calls w' = TestRunner.start_calls w ++ [(exe', args)] /\
    TestRunner.emitted w' = TestRunner.emitted w /\
    TestRunner.kill_if_running w' = w'.
Proof.
  intros Hfw exe' Hno. destruct (start_known config pythonpath w exe args Hfw)
    as (p & _ & _ & _ & _ & _ & Heq).
  fold exe' in Heq. rewrite Hno in Heq. eexists. split; [exact Heq |]. simpl.
  split; [eexists; repeat split; reflexivity |]. done.
Qed.

(** After the exit event the process object is not running. *)
Lemma slots_keep_state (slots : list Slot) (acc : result unit * TestRunner.World (Float := Float)) :
  (exists p, TestRunner.process (snd acc) = Some p /\ state p = NotRunning) ->
  exists p,
    TestRunner.process
      (snd (fold_left (fun acc sl =>
                         match fst acc with
                         | Ok _ => TestRunner.call_slot float_of_string sl (snd acc)
                         | Raise e => acc
                         end) slots acc)) = Some p /\ state p = NotRunning.
Proof.
  revert acc. induction slots as [|sl slots IH]; intros acc Hacc; simpl; [done |].
  apply IH. destruct (fst acc); [| done]. destruct Hacc as (p & Hp & Hs).
  destruct sl. unfold TestRunner.call_slot, TestRunner.finished. rewrite Hp.
  destruct (TestRunner.load_data _ _ _); simpl; eexists; (split; [reflexivity | done]).
Qed.

Lemma process_exits_not_running (w : TestRunner.World (Float := Float)) :
  match TestRunner.process (snd (TestRunner.process_exits float_of_string w)) with
  | Some p => state p <> Running
  | None => True
  end.
Proof.
  unfold TestRunner.process_exits. destruct (TestRunner.process w) as [p|] eqn:Hp.
  - destruct (state p) eqn:Hs; simpl; try (rewrite Hp, Hs; discriminate).
    match goal with
    | |- context [fold_left ?f ?l ?a] =>
        destruct (slots_keep_state l a) as (q & -> & Hq)
    end; [simpl; eexists; split; reflexivity | rewrite Hq; discriminate].
  - simpl. by rewrite Hp.
Qed.

(** X13: [kill_if_running] changes nothing but the kill request on the
    process object; calling it twice is calling it once; it does nothing
    when there is no process or the process is not running, in particular
    after the exit event. *)
Theorem kill_if_running_is_safe (w : TestRunner.World (Float := Float)) :
  TestRunner.kill_if_running (TestRunner.kill_if_running w) = TestRunner.kill_if_running w /\
  TestRunner.fs (TestRunner.kill_if_running w) = TestRunner.fs w /\
  TestRunner.emitted (TestRunner.kill_if_running w) = TestRunner.emitted w /\
  TestRunner.start_calls (TestRunner.kill_if_running w) = TestRunner.start_calls w /\
  (TestRunner.process w = None \/
   (exists p, TestRunner.process w = Some p /\ state p <> Running) ->
   TestRunner.kill_if_running w = w) /\
  TestRunner.kill_if_running (snd (TestRunner.process_exits float_of_string w)) =
    snd (TestRunner.process_exits float_of_string w).
Proof.
  assert (Hnoop : forall v : TestRunner.World (Float := Float),
            TestRunner.process v = None \/
            (exists p, TestRunner.process v = Some p /\ state p <> Running) ->
            TestRunner.kill_if_running v = v).
  { intros v [Hn | (p & Hp & Hs)]; unfold TestRunner.kill_if_running.
    - by rewrite Hn.
    - rewrite Hp. by destruct (state p). }
  repeat split.
  - unfold TestRunner.kill_if_running at 2 3. destruct (TestRunner.process w) as [p|] eqn:Hp.
    + destruct (state p) eqn:Hs; try (apply Hnoop; right; exists p; split; [done | congruence]).
      unfold TestRunner.kill_if_running. simpl. by rewrite Hs.
    + apply Hnoop. by left.
  - unfold TestRunner.kill_if_running. destruct (TestRunner.process w) as [p|]; [| done].
    by destruct (state p).
  - unfold TestRunner.kill_if_running. destruct (TestRunner.process w) as [p|]; [| done].
    by destruct (state p).
  - unfold TestRunner.kill_if_running. destruct (TestRunner.process w) as [p|]; [| done].
    by destruct (state p).
  - apply Hnoop.
  - apply Hnoop. pose proof (process_exits_not_running w) as H.
    destruct (TestRunner.process (snd (TestRunner.process_exits float_of_string w)));
      [right; eauto | by left].
Qed.

(** X14: a process that a later [start] replaced keeps [self.finished]
    connected: when it exits, [finished] runs on the process started last,
    so [sig_finished] is emitted with the output that process has printed
    so far, while it is still running; its own exit then emits a second
    notification, with no output left. *)
Theorem exit_of_replaced_process_is_reported (config : TestConfig)
    (pythonpath : option (list string)) (w w1 : TestRunner.World (Float := Float))
    (q : QProcess) (out : string) (rs : list (TestResult Float)) :
  TestRunner.process w = Some q ->
  state q = Running ->
  finished_slots q = [SelfFinished] ->
  TestRunner.start add_pathlist_to_PYTHONPATH config pythonpath w = (Ok tt, w1) ->
  TestRunner.load_data float_of_string (TestRunner.fs w1) (TestRunner.resultfilename w1)
    = Ok rs ->
  let i := length (TestRunner.replaced w) in
  let w2 := TestRunner.child_prints out w1 in
  let w3 := snd (TestRunner.replaced_process_exits float_of_string i w2) in
  TestRunner.replaced w1 !! i = Some q /\
  fst (TestRunner.replaced_process_exits float_of_string i w2) = Ok tt /\
  TestRunner.emitted w3 = TestRunner.emitted w ++ [(rs, out)] /\
  (exists p, TestRunner.process w3 = Some p /\ state p = Running /\
             standardOutput p = "") /\
  TestRunner.emitted (snd (TestRunner.process_exits float_of_string w3)) =
    TestRunner.emitted w ++ [(rs, out); (rs, "")].
Proof.
  intros Hq Hs Hsl Hst Hld i w2 w3.
  assert (Hfw : exists exe args,
    (framework config = "nose" /\ exe = "nosetests" /\
     args = ["--with-xunit"; "--xunit-file=" +:+ TestRunner.resultfilename w]) \/
    (framework config = "py.test" /\ exe = "py.test" /\
     args = ["--junit-xml"; TestRunner.resultfilename w])).
  { revert Hst. unfold TestRunner.start.
    destruct (String.eqb_spec (framework config) "nose") as [->|];
      [intros _; eexists _, _; left; eauto |].
    destruct (String.eqb_spec (framework config) "py.test") as [->|];
      [intros _; eexists _, _; right; eauto | discriminate]. }
  destruct Hfw as (exe & args & Hfw).
  destruct (start_known config pythonpath w exe args Hfw)
    as (p & Hpsl & _ & Hout & _ & _ & Heq).
  rewrite Hst in Heq.
  match type of Heq with
  | context [startable ?h ?e] => destruct (startable h e); [| discriminate]
  end.
  injection Heq as Hw1. rewrite Hq in Hw1.
  assert (Hi : TestRunner.replaced w1 !! i = Some q).
  { rewrite Hw1. simpl. subst i. by rewrite list_lookup_middle. }
  split; [exact Hi |].
  assert (Hrep : TestRunner.replaced w2 !! i = Some q)
    by (subst w2; rewrite Hw1; rewrite Hw1 in Hi; exact Hi).
  subst w3. unfold TestRunner.replaced_process_exits. rewrite Hrep, Hs, Hsl. simpl.
  unfold TestRunner.finished. subst w2. rewrite Hw1 in Hld |- *. simpl in Hld |- *.
  rewrite Hld. simpl. rewrite Hout. simpl.
  split; [done |]. split; [done |]. split; [eexists; repeat split; reflexivity |].
  unfold TestRunner.process_exits. simpl. rewrite Hpsl. simpl.
  unfold TestRunner.finished. simpl. rewrite Hld. simpl.
  by rewrite <- app_assoc.
Qed.

(** X15: a whole run.  After a successful [start], a child that prints
    [out], writes a result file whose test cases can all be read, and
    exits, makes the runner emit [sig_finished] once, with the records of
    that file in order and with [out]. *)
Theorem run_reports_the_results (config : TestConfig) (pythonpath : option (list string))
    (w w1 : TestRunner.World (Float := Float)) (out : string) (root : Element)
    (rs : list (TestResult Float)) :
  TestRunner.start add_pathlist_to_PYTHONPATH config pythonpath w = (Ok tt, w1) ->
  Forall2 (fun tc r => TestRunner.testcase_result float_of_string tc = Ok r)
          (children root) rs ->
  let w2 := TestRunner.child_writes (Document root) (TestRunner.child_prints out w1) in
  fst (TestRunner.process_exits float_of_string w2) = Ok tt /\
  TestRunner.emitted (snd (TestRunner.process_exits float_of_string w2)) =
    TestRunner.emitted w ++ [(rs, out)].
Proof.
  intros Hst HF w2.
  destruct (start_Ok add_pathlist_to_PYTHONPATH config pythonpath w w1 Hst)
    as (p & Hp & Hs & Hsl & _ & Hem).
  assert (Hout : standardOutput p = "").
  { revert Hst Hp. unfold TestRunner.start.
    destruct (String.eqb (framework config) "nose");
      [| destruct (String.eqb (framework config) "py.test"); [| discriminate]];
      cbv zeta;
      match goal with
      | |- context [startable ?h ?e] => destruct (startable h e)
      end; try discriminate; intros [= <-]; simpl; intros [= <-];
      by destruct pythonpath. }
  assert (Hld : TestRunner.load_data float_of_string (TestRunner.fs w2)
                  (TestRunner.resultfilename w2) = Ok rs).
  { apply (load_data_A_Ok float_of_string _ _ root); [| done].
    subst w2. unfold TestRunner.child_writes, TestRunner.child_prints. rewrite Hp. simpl.
    apply lookup_insert_eq. }
  subst w2. revert Hld.
  unfold TestRunner.process_exits, TestRunner.child_writes, TestRunner.child_prints.
  rewrite Hp. simpl. rewrite Hs, Hsl. simpl. unfold TestRunner.finished. simpl.
  intros ->. simpl. by rewrite Hout, Hem.
Qed.

(** X16: when the result file cannot be read as the loader expects (not
    XML, a [time] that is no number, ...), the exit event emits no
    [sig_finished] at all: the exception of [load_data] leaves [finished],
    and the output read from the process is dropped with it. *)
Theorem unreadable_results_emit_nothing (w : TestRunner.World (Float := Float))
    (p : QProcess) (e : PyExn) :
  TestRunner.process w = Some p ->
  state p = Running ->
  finished_slots p = [SelfFinished] ->
  TestRunner.load_data float_of_string (TestRunner.fs w) (TestRunner.resultfilename w)
    = Raise e ->
  fst (TestRunner.process_exits float_of_string w) = Raise e /\
  TestRunner.emitted (snd (TestRunner.process_exits float_of_string w)) =
    TestRunner.emitted w /\
  exists q, TestRunner.process (snd (TestRunner.process_exits float_of_string w)) = Some q /\
            standardOutput q = "" /\ state q = NotRunning.
Proof.
  intros Hp Hs Hsl Hld. unfold TestRunner.process_exits. rewrite Hp, Hs, Hsl. simpl.
  unfold TestRunner.finished. simpl. rewrite Hld. simpl.
  repeat split. eexists. split; [reflexivity |]. by simpl.
Qed.

End MoreRuns.

(** ** The environment of the child *)

Lemma partition_found (sep : ascii) (n v : string) :
  char_in sep n = false ->
  partition sep (n +:+ String sep v) = (n, String sep "", v).
Proof.
  unfold char_in. induction n as [|c n IH]; simpl.
  - intros _. by rewrite Ascii.eqb_refl.
  - intros [Hc Hn]%orb_false_elim. rewrite Ascii.eqb_sym, Hc. by rewrite (IH Hn).
Qed.

Lemma partition_not_found (sep : ascii) (s : string) :
  char_in sep s = false -> partition sep s = (s, "", "").
Proof.
  unfold char_in. induction s as [|c s IH]; simpl; [done |].
  intros [Hc Hn]%orb_false_elim. rewrite Ascii.eqb_sym, Hc. by rewrite (IH Hn).
Qed.

(** The three parts of [partition] put together give the string back. *)
Lemma partition_join (sep : ascii) (s h sp t : string) :
  partition sep s = (h, sp, t) -> s = h +:+ sp +:+ t.
Proof.
  revert h sp t. induction s as [|c s IH]; intros h sp t; simpl.
  - by intros [= <- <- <-].
  - destruct (Ascii.eqb_spec c sep) as [->|Hne]; [by intros [= <- <- <-] |].
    destruct (partition sep s) as [[h' sp'] t'] eqn:Hp.
    specialize (IH h' sp' t' eq_refl).
    destruct sp' as [|a sp'].
    + intros [= <- <- <-]. by rewrite str_app_nil_r.
    + intros [= <- <- <-]. rewrite str_app_cons. by f_equal.
Qed.

Section Environment.
Context (h : Host).

Lemma env_step_insert (pe : gmap string string) (item : string) :
  env_step h pe item =
    <[environment_key h (env_name item) := snd (partition "=" item)]> pe.
Proof. unfold env_step, env_name. by destruct (partition "=" item) as [[n sp] v]. Qed.

Lemma env_fold_other (items : list string) (pe : gmap string string) (k : string) :
  Forall (fun it => environment_key h (env_name it) <> k) items ->
  fold_left (env_step h) items pe !! k = pe !! k.
Proof.
  revert pe. induction items as [|it items IH]; intros pe H; simpl; [done |].
  inversion H as [|? ? Hit Hrest]; subst. rewrite (IH _ Hrest), env_step_insert.
  by apply lookup_insert_ne.
Qed.

Lemma env_fold_last (pre post : list string) (item : string) (pe : gmap string string) :
  Forall (fun it => environment_key h (env_name it) <> environment_key h (env_name item))
         post ->
  fold_left (env_step h) (pre ++ item :: post) pe !! environment_key h (env_name item) =
    Some (snd (partition "=" item)).
Proof.
  intros Hpost. rewrite fold_left_app. simpl.
  rewrite (env_fold_other post _ _ Hpost), env_step_insert.
  apply lookup_insert_eq.
Qed.

End Environment.

Section StartEnvironment.
Context {Float : Type}.
Context (add_pathlist_to_PYTHONPATH : list string -> list string -> list string).

(** X17: without [pythonpath], [start] leaves the environment of the
    process unset.  With one, the environment is built from the items of
    the system environment after [add_pathlist_to_PYTHONPATH], each name
    being filed under the key Qt gives it on the host (the name itself,
    except on Windows, where case is ignored): an item [NAME=VALUE] gives
    the key of [NAME] the value [VALUE] (which may itself contain [=])
    unless a later item has a name with the same key, an item without [=]
    sets the key of its whole text to the empty value, and a key no item
    has is not set.  This is done before the framework is looked at. *)
Theorem start_environment (config : TestConfig) (pythonpath : option (list string))
    (w : TestRunner.World (Float := Float)) :
  let key := environment_key (TestRunner.host w) in
  exists p,
    TestRunner.process
      (snd (TestRunner.start add_pathlist_to_PYTHONPATH config pythonpath w)) = Some p /\
    match pythonpath with
    | None => processEnvironment p = None
    | Some pathlist =>
        let env := add_pathlist_to_PYTHONPATH (systemEnvironment (TestRunner.host w))
                     pathlist in
        exists m, processEnvironment p = Some m /\
          (forall pre n v post,
             env = pre ++ (n +:+ "=" +:+ v) :: post ->
             char_in "=" n = false ->
             Forall (fun it => key (env_name it) <> key n) post ->
             m !! key n = Some v) /\
          (forall pre item post,
             env = pre ++ item :: post ->
             char_in "=" item = false ->
             Forall (fun it => key (env_name it) <> key item) post ->
             m !! key item = Some "") /\
          (forall k, Forall (fun it => key (env_name it) <> k) env -> m !! k = None)
    end.
Proof.
  intros key. unfold TestRunner.start.
  match goal with
  | |- context [TestRunner.assign_process ?q w] => set (p := q)
  end.
  assert (Hres : exists q,
    TestRunner.process
      (snd (let w0 := TestRunner.assign_process p w in
            let command :=
              if String.eqb (framework config) "nose"
              then Ok ("nosetests",
                       ["--with-xunit"; "--xunit-file=" +:+ TestRunner.resultfilename w0])
              else if String.eqb (framework config) "py.test"
                   then Ok ("py.test", ["--junit-xml"; TestRunner.resultfilename w0])
                   else Raise (ValueError "Unknown framework") in
            match command with
            | Ok (executable, p_args) =>
                let executable0 :=
                  if String.eqb (os_name (TestRunner.host w0)) "nt"
                  then executable +:+ ".exe" else executable in
                let w1 := snd (TestRunner.os_remove (TestRunner.resultfilename w0) w0) in
                let running := startable (TestRunner.host w1) executable0 in
                let w2 :=
                  TestRunner.log_start (executable0, p_args)
                    (TestRunner.set_process
                       (Some (process_start executable0 p_args running p)) w1) in
                if running then (Ok tt, w2) else (Raise RuntimeError, w2)
            | Raise e => (Raise e, w0)
            end)) = Some q /\ processEnvironment q = processEnvironment p).
  { cbv zeta.
    destruct (String.eqb (framework config) "nose");
      [| destruct (String.eqb (framework config) "py.test")].
    3: by exists p.
    all: match goal with
         | |- context [startable ?h ?e] => destruct (startable h e)
         end; simpl; eexists; (split; [reflexivity | done]). }
  destruct Hres as (q & Hq & Henv). exists q. split; [exact Hq |].
  rewrite Henv. subst p. destruct pythonpath as [pathlist|]; [| done].
  simpl. eexists. split; [reflexivity |].
  change (fun (pe : gmap string string) (envItem : string) =>
            let '(envName, _, envValue) := partition "=" envItem in
            <[environment_key (TestRunner.host w) envName:=envValue]> pe)
    with (env_step (TestRunner.host w)).
  split; [| split].
  - intros pre n v post -> Hn Hpost.
    assert (Hpart : partition "=" (n +:+ "=" +:+ v) = (n, "=", v))
      by (apply (partition_found "=" n v Hn)).
    assert (Hname : env_name (n +:+ "=" +:+ v) = n) by (unfold env_name; by rewrite Hpart).
    pose proof (env_fold_last (TestRunner.host w) pre post (n +:+ "=" +:+ v) ∅) as H.
    rewrite Hname, Hpart in H. by apply H.
  - intros pre item post -> Hn Hpost.
    pose proof (partition_not_found "=" item Hn) as Hpart.
    assert (Hname : env_name item = item) by (unfold env_name; by rewrite Hpart).
    pose proof (env_fold_last (TestRunner.host w) pre post item ∅) as H.
    rewrite Hname, Hpart in H. by apply H.
  - intros k Hall. by rewrite (env_fold_other (TestRunner.host w) _ _ k Hall).
Qed.

End StartEnvironment.

(** ** [NoseRunner.finished] *)

Section NoseFinished.
Context {Float : Type} (float_of_string : string -> Float + string).
Context (gettext : string -> string).
Context {Base : Type} (read_all_process_output : Base -> result string * Base).

(** X18: [NoseRunner.finished] emits [sig_finished] exactly when the
    output could be read and the result file loaded, and then with the
    flag [True] whatever the records say, failures included.  When reading
    the output raises, or [load_data] raises, that exception leaves
    [finished] and nothing is emitted. *)
Theorem nose_finished_flag_is_true (fs : gmap string FileEntry)
    (self : NoseRunner.Runner (Float := Float) (Base := Base)) :
  let self' := snd (NoseRunner.finished float_of_string gettext read_all_process_output
                      fs self) in
  let outcome := fst (NoseRunner.finished float_of_string gettext read_all_process_output
                        fs self) in
  match read_all_process_output (NoseRunner.base self) with
  | (Raise e, _) =>
      outcome = Raise e /\ NoseRunner.emitted self' = NoseRunner.emitted self
  | (Ok out, _) =>
      match NoseRunner.load_data float_of_string gettext fs
              (NoseRunner.resultfilename self) with
      | Raise e =>
          outcome = Raise e /\ NoseRunner.emitted self' = NoseRunner.emitted self
      | Ok rs =>
          outcome = Ok tt /\
          NoseRunner.emitted self' = NoseRunner.emitted self ++ [(rs, out, true)]
      end
  end.
Proof.
  unfold NoseRunner.finished.
  destruct (read_all_process_output (NoseRunner.base self)) as [[out|e] b]; simpl; [| done].
  by destruct (NoseRunner.load_data float_of_string gettext fs
                 (NoseRunner.resultfilename self)) as [rs|e].
Qed.

End NoseFinished.

(** ** The further properties at work on the sample data *)

Lemma runners_agree_on_plain_files_witness :
  forallb plain_testcase (children sample_suite) = true /\
  TestRunner.load_data decimal sample_fs "unittest.results" =
  NoseRunner.load_data decimal (fun s => s) sample_fs "unittest.results".
Proof.
  split; [vm_compute; reflexivity |].
  apply (runners_agree_on_plain_files decimal (fun s => s) sample_fs "unittest.results").
  intros root Hroot.
  assert (E : sample_fs !! "unittest.results" = Some (Document sample_suite))
    by (vm_compute; reflexivity).
  rewrite E in Hroot. injection Hroot as <-. vm_compute. reflexivity.
Defined.

Lemma category_follows_status_witness :
  TestRunner.load_data decimal sample_fs "unittest.results" = Ok sample_records /\
  STATUS_TO_CATEGORY !! "failure" = Some FAIL.
Proof.
  assert (H : TestRunner.load_data decimal sample_fs "unittest.results" = Ok sample_records)
    by (vm_compute; reflexivity).
  split; [exact H |].
  exact (category_follows_status decimal (fun s => s) sample_fs "unittest.results"
           sample_records
           (mkTestResult FAIL "failure" "TestA.test_two" "ValueError: bad"
              (QArith_base.Qmake 2 100) "Traceback")
           (or_introl H) (or_intror (or_introl eq_refl))).
Defined.

Lemma record_name_is_classname_dot_name_witness :
  NoseRunner.load_data decimal (fun s => s) sample_fs "unittest.results" = Ok sample_records /\
  exists root tc,
    sample_fs !! "unittest.results" = Some (Document root) /\
    children root !! 1 = Some tc /\
    "TestA.test_two" = py_str (get tc "classname") +:+ "." +:+ py_str (get tc "name") /\
    (get tc "classname" = None -> "TestA.test_two" = "None." +:+ py_str (get tc "name")) /\
    (get tc "name" = None -> "TestA.test_two" = py_str (get tc "classname") +:+ ".None") /\
    "TestA.test_two" <> "".
Proof.
  assert (H : NoseRunner.load_data decimal (fun s => s) sample_fs "unittest.results"
              = Ok sample_records) by (vm_compute; reflexivity).
  split; [exact H |].
  exact (record_name_is_classname_dot_name decimal (fun s => s) sample_fs "unittest.results"
           sample_records 1
           (mkTestResult FAIL "failure" "TestA.test_two" "ValueError: bad"
              (QArith_base.Qmake 2 100) "Traceback")
           (or_intror H) eq_refl).
Defined.

(** A test case without [classname]. *)
Example name_without_classname :
  TestRunner.testcase_result decimal
    (element "testcase" [("name", "alone"); ("time", "1")] None []) =
    Ok (mkTestResult OK "ok" "None.alone" "" (QArith_base.Qmake 1 1) "").
Proof. vm_compute. reflexivity. Qed.

Lemma missing_time_raises_TypeError_witness :
  get untimed_testcase "time" = None /\
  TestRunner.load_data decimal (results_file untimed_suite) "unittest.results"
    = Raise TypeError /\
  NoseRunner.load_data decimal (fun s => s) (results_file untimed_suite) "unittest.results"
    = Raise TypeError.
Proof.
  assert (Hf : results_file untimed_suite !! "unittest.results"
               = Some (Document untimed_suite)) by (vm_compute; reflexivity).
  assert (Ht : get untimed_testcase "time" = None) by (vm_compute; reflexivity).
  destruct (missing_time_raises_TypeError decimal (fun s => s)
              (results_file untimed_suite) "unittest.results" untimed_suite
              [testcase "T" "quick" "0.023" []] untimed_testcase [] Hf eq_refl Ht)
    as [HA HB].
  split; [exact Ht |].
  split; [apply HA | apply HB]; repeat constructor; eexists; vm_compute; reflexivity.
Defined.

Lemma first_bad_testcase_aborts_witness :
  TestRunner.testcase_result decimal (testcase "T" "quick" "0.023" []) =
    Ok (mkTestResult OK "ok" "T.quick" "" (QArith_base.Qmake 23 1000) "") /\
  NoseRunner.load_data decimal (fun s => s) (results_file untimed_suite) "unittest.results"
    = Raise TypeError /\
  ~ (exists rs, TestRunner.load_data decimal (results_file untimed_suite) "unittest.results"
                = Ok rs).
Proof.
  assert (Hf : results_file untimed_suite !! "unittest.results"
               = Some (Document untimed_suite)) by (vm_compute; reflexivity).
  destruct (first_bad_testcase_aborts decimal (fun s => s)
              (results_file untimed_suite) "unittest.results" untimed_suite Hf)
    as (HA & _ & _ & HB).
  split; [vm_compute; reflexivity |]. split.
  - apply (HB [testcase "T" "quick" "0.023" []] untimed_testcase [] TypeError eq_refl).
    + repeat constructor. eexists. vm_compute. reflexivity.
    + vm_compute. reflexivity.
  - intros Hrs. apply HA in Hrs.
    inversion Hrs as [|? ? _ Hrest]; subst. inversion Hrest as [|? ? [r Hr] _]; subst.
    vm_compute in Hr. discriminate.
Defined.

(** [noisy_testcase] with and without its [properties] children. *)
Example unknown_children_example :
  NoseRunner.testcase_result decimal (fun s => s) noisy_testcase =
  NoseRunner.testcase_result decimal (fun s => s)
    (testcase "T" "noisy" "0.5" [boom_failure; hello_out]).
Proof. vm_compute. reflexivity. Qed.

Lemma no_outcome_child_is_ok_witness :
  py_float decimal (get printing_testcase "time") = Ok (QArith_base.Qmake 5 10) /\
  NoseRunner.testcase_result decimal (fun s => s) printing_testcase =
    Ok (mkTestResult OK "ok" (full_name printing_testcase) "" (QArith_base.Qmake 5 10)
          (join (NL +:+ NL)
             (List.concat (map (blocks_of (fun s => s)) (children printing_testcase))))).
Proof.
  assert (Ht : py_float decimal (get printing_testcase "time") = Ok (QArith_base.Qmake 5 10))
    by (vm_compute; reflexivity).
  split; [exact Ht |].
  apply (no_outcome_child_is_ok decimal (fun s => s) printing_testcase
           (QArith_base.Qmake 5 10) Ht); vm_compute; reflexivity.
Defined.

Lemma last_outcome_child_wins_witness :
  exists r,
    NoseRunner.testcase_result decimal (fun s => s) failed_then_skipped = Ok r /\
    status r = "skipped" /\ category r = SKIP /\
    extra_text r = "SkipTest: later".
Proof.
  eexists. split; [vm_compute; reflexivity |].
  destruct (last_outcome_child_wins decimal (fun s => s) failed_then_skipped
              [boom_failure] skipped_child [] _ eq_refl eq_refl eq_refl
              ltac:(vm_compute; reflexivity)) as [Hs Hc].
  split; [exact Hs |]. split; [exact Hc |]. reflexivity.
Defined.

Lemma stream_block_is_stripped_witness :
  exists contents cut : string,
    "hello" +:+ NL = contents +:+ cut /\ only_newlines cut = true /\
    (forall kept a, contents = kept +:+ String a "" -> char_in a NL = false) /\
    NoseRunner.testcase_result decimal (fun s => s) printing_testcase =
      Ok (mkTestResult OK "ok" (full_name printing_testcase) "" (QArith_base.Qmake 5 10)
            (heading_of (fun s => s) hello_out +:+ NL +:+ contents)).
Proof.
  apply (stream_block_is_stripped decimal (fun s => s) printing_testcase hello_out
           ("hello" +:+ NL) (QArith_base.Qmake 5 10)).
  - vm_compute. reflexivity.
  - reflexivity.
  - reflexivity.
  - reflexivity.
Defined.

Lemma start_command_line_witness :
  TestRunner.start_calls
    (snd (TestRunner.start sample_add_pathlist sample_config None windows_world)) =
    [("py.test.exe", ["--junit-xml"; "C:/Temp/unittest.results"])] /\
  TestRunner.start_calls
    (snd (TestRunner.start sample_add_pathlist (mkTestConfig "nose" "/proj") None
            sample_world)) =
    [("nosetests", ["--with-xunit"; "--xunit-file=/tmp/unittest.results"])].
Proof.
  split.
  - destruct (start_command_line sample_add_pathlist sample_config None windows_world
                "py.test" ["--junit-xml"; "C:/Temp/unittest.results"]
                (or_intror (conj eq_refl (conj eq_refl eq_refl)))) as [H _].
    exact H.
  - destruct (start_command_line sample_add_pathlist (mkTestConfig "nose" "/proj") None
                sample_world
                "nosetests" ["--with-xunit"; "--xunit-file=/tmp/unittest.results"]
                (or_introl (conj eq_refl (conj eq_refl eq_refl)))) as [H _].
    exact H.
Defined.

Lemma stale_results_are_not_reported_witness :
  TestRunner.load_data decimal (TestRunner.fs stale_world) "unittest.results"
    = Ok sample_records /\
  TestRunner.emitted
    (snd (TestRunner.process_exits decimal
            (TestRunner.child_prints "Killed" restarted_world))) = [([], "Killed")] /\
  TestRunner.emitted
    (snd (TestRunner.process_exits decimal
            (TestRunner.child_prints "Killed" relocked_world))) =
    [(sample_records, "Killed")].
Proof.
  assert (Hst : TestRunner.start sample_add_pathlist sample_config None stale_world
                = (Ok tt, restarted_world)) by (vm_compute; reflexivity).
  assert (Hlk : TestRunner.start sample_add_pathlist sample_config None locked_world
                = (Ok tt, relocked_world)) by (vm_compute; reflexivity).
  assert (Hld : TestRunner.load_data decimal (TestRunner.fs locked_world)
                  (TestRunner.resultfilename locked_world) = Ok sample_records)
    by (vm_compute; reflexivity).
  split; [vm_compute; reflexivity |]. split.
  - destruct (stale_results_are_not_reported decimal sample_add_pathlist sample_config None
                stale_world restarted_world "Killed" Hst) as [H _].
    destruct (H (or_intror eq_refl)) as (_ & _ & He). exact He.
  - destruct (stale_results_are_not_reported decimal sample_add_pathlist sample_config None
                locked_world relocked_world "Killed" Hlk) as [_ H].
    destruct (H sample_records eq_refl Hld) as [_ He]. exact He.
Defined.

Lemma start_failed_launch_witness :
  exists w',
    TestRunner.start sample_add_pathlist sample_config None bare_world
      = (Raise RuntimeError, w') /\
    (exists p, TestRunner.process w' = Some p /\ state p = NotRunning /\
               program p = Some ("py.test", ["--junit-xml"; "/tmp/unittest.results"])) /\
    TestRunner.start_calls w' = [("py.test", ["--junit-xml"; "/tmp/unittest.results"])] /\
    TestRunner.emitted w' = [] /\
    TestRunner.kill_if_running w' = w'.
Proof.
  exact (start_failed_launch sample_add_pathlist sample_config None bare_world
           "py.test" ["--junit-xml"; "/tmp/unittest.results"]
           (or_intror (conj eq_refl (conj eq_refl eq_refl))) eq_refl).
Defined.

Lemma kill_if_running_is_safe_witness :
  TestRunner.process sample_world = None /\
  TestRunner.kill_if_running sample_world = sample_world /\
  TestRunner.kill_if_running (TestRunner.kill_if_running started_world) =
    TestRunner.kill_if_running started_world.
Proof.
  destruct (kill_if_running_is_safe decimal sample_world) as (_ & _ & _ & _ & H & _).
  destruct (kill_if_running_is_safe decimal started_world) as (H2 & _).
  split; [reflexivity |]. split; [apply H; left; reflexivity | exact H2].
Defined.

Lemma exit_of_replaced_process_is_reported_witness :
  TestRunner.start sample_add_pathlist sample_config None started_world
    = (Ok tt, twice_started_world) /\
  TestRunner.emitted
    (snd (TestRunner.replaced_process_exits decimal 0
            (TestRunner.child_prints "second run" twice_started_world))) =
    [([], "second run")] /\
  TestRunner.emitted
    (snd (TestRunner.process_exits decimal
            (snd (TestRunner.replaced_process_exits decimal 0
                    (TestRunner.child_prints "second run" twice_started_world))))) =
    [([], "second run"); ([], "")].
Proof.
  assert (Hst : TestRunner.start sample_add_pathlist sample_config None started_world
                = (Ok tt, twice_started_world)) by (vm_compute; reflexivity).
  split; [exact Hst |].
  destruct (TestRunner.process started_world) as [q|] eqn:Hq;
    [| vm_compute in Hq; discriminate].
  assert (Hs : state q = Running) by (vm_compute in Hq; injection Hq as <-; reflexivity).
  assert (Hsl : finished_slots q = [SelfFinished])
    by (vm_compute in Hq; injection Hq as <-; reflexivity).
  destruct (exit_of_replaced_process_is_reported decimal sample_add_pathlist sample_config
              None started_world twice_started_world q "second run" [] Hq Hs Hsl Hst
              ltac:(vm_compute; reflexivity)) as (_ & _ & H1 & _ & H2).
  split; [exact H1 | exact H2].
Defined.

Lemma run_reports_the_results_witness :
  TestRunner.start sample_add_pathlist sample_config (Some ["/proj/src"]) sample_world
    = (Ok tt, started_world) /\
  TestRunner.emitted
    (snd (TestRunner.process_exits decimal
            (TestRunner.child_writes (Document sample_suite)
               (TestRunner.child_prints "1 failed, 1 passed" started_world)))) =
    [(sample_records, "1 failed, 1 passed")].
Proof.
  assert (Hst : TestRunner.start sample_add_pathlist sample_config (Some ["/proj/src"])
                  sample_world = (Ok tt, started_world)) by (vm_compute; reflexivity).
  split; [exact Hst |].
  assert (HF : Forall2 (fun tc r => TestRunner.testcase_result decimal tc = Ok r)
                 (children sample_suite) sample_records)
    by (repeat constructor; vm_compute; reflexivity).
  destruct (run_reports_the_results decimal sample_add_pathlist sample_config
              (Some ["/proj/src"]) sample_world started_world "1 failed, 1 passed"
              sample_suite sample_records Hst HF) as [_ H].
  exact H.
Defined.

Lemma unreadable_results_emit_nothing_witness :
  fst (TestRunner.process_exits decimal (TestRunner.child_writes Malformed started_world))
    = Raise XMLSyntaxError /\
  TestRunner.emitted
    (snd (TestRunner.process_exits decimal (TestRunner.child_writes Malformed started_world)))
    = [].
Proof.
  destruct (TestRunner.process (TestRunner.child_writes Malformed started_world))
    as [p|] eqn:Hp; [| vm_compute in Hp; discriminate].
  assert (Hs : state p = Running) by (vm_compute in Hp; injection Hp as <-; reflexivity).
  assert (Hsl : finished_slots p = [SelfFinished])
    by (vm_compute in Hp; injection Hp as <-; reflexivity).
  destruct (unreadable_results_emit_nothing decimal
              (TestRunner.child_writes Malformed started_world) p XMLSyntaxError
              Hp Hs Hsl ltac:(vm_compute; reflexivity)) as (H1 & H2 & _).
  split; [exact H1 | exact H2].
Defined.

Lemma start_environment_witness :
  (exists p m,
     TestRunner.process
       (snd (TestRunner.start sample_add_pathlist sample_config (Some ["/proj/src"; "/lib"])
               sample_world)) = Some p /\
     processEnvironment p = Some m /\
     m !! "PYTHONPATH" = Some "/proj/src:/lib" /\
     m !! "PATH" = Some "/usr/bin" /\
     m !! "HOME" = None) /\
  (exists p m,
     TestRunner.process
       (snd (TestRunner.start sample_add_pathlist sample_config (Some ["C:/proj"])
               windows_world)) = Some p /\
     processEnvironment p = Some m /\
     m !! "PATH" = Some "C:/Qt" /\
     m !! "Path" = None).
Proof.
  split.
  - destruct (start_environment (Float := QArith_base.Q) sample_add_pathlist sample_config
                (Some ["/proj/src"; "/lib"]) sample_world)
      as (p & Hp & m & Hm & Hlast & _ & Hnone).
    exists p, m. split; [exact Hp |]. split; [exact Hm |]. split; [| split].
    + apply (Hlast ["PATH=/usr/bin"] "PYTHONPATH" "/proj/src:/lib" []);
        [vm_compute; reflexivity | reflexivity | constructor].
    + apply (Hlast [] "PATH" "/usr/bin" ["PYTHONPATH=/proj/src:/lib"]);
        [vm_compute; reflexivity | reflexivity |].
      repeat constructor. vm_compute. discriminate.
    + apply Hnone. repeat constructor; vm_compute; discriminate.
  - destruct (start_environment (Float := QArith_base.Q) sample_add_pathlist sample_config
                (Some ["C:/proj"]) windows_world)
      as (p & Hp & m & Hm & Hlast & _ & Hnone).
    exists p, m. split; [exact Hp |]. split; [exact Hm |]. split.
    + apply (Hlast ["Path=C:/Python"] "PATH" "C:/Qt" ["PYTHONPATH=C:/proj"]);
        [vm_compute; reflexivity | reflexivity |].
      repeat constructor. vm_compute. discriminate.
    + apply Hnone. repeat constructor; vm_compute; discriminate.
Defined.

Lemma nose_finished_flag_is_true_witness :
  In FAIL (map category sample_records) /\
  NoseRunner.emitted
    (snd (NoseRunner.finished decimal (fun s => s) buffer_output sample_fs sample_nose)) =
    [(sample_records, "1 failed", true)] /\
  fst (NoseRunner.finished decimal (fun s => s) buffer_output
         (results_file broken_time_suite) sample_nose) =
    Raise (ValueError "could not convert string to float: 'abc'") /\
  NoseRunner.emitted
    (snd (NoseRunner.finished decimal (fun s => s) buffer_output
            (results_file broken_time_suite) sample_nose)) = [].
Proof.
  split; [right; left; reflexivity |].
  pose proof (nose_finished_flag_is_true decimal (fun s => s) buffer_output sample_fs
                sample_nose) as H.
  pose proof (nose_finished_flag_is_true decimal (fun s => s) buffer_output
                (results_file broken_time_suite) sample_nose) as H'.
  cbv zeta in H, H'.
  change (buffer_output (NoseRunner.base sample_nose)) with (Ok "1 failed", "") in H, H'.
  cbv iota in H, H'.
  assert (Hld : NoseRunner.load_data decimal (fun s => s) sample_fs
                  (NoseRunner.resultfilename sample_nose) = Ok sample_records)
    by (vm_compute; reflexivity).
  assert (Hld' : NoseRunner.load_data decimal (fun s => s) (results_file broken_time_suite)
                   (NoseRunner.resultfilename sample_nose) =
                 Raise (ValueError "could not convert string to float: 'abc'"))
    by (vm_compute; reflexivity).
  rewrite Hld in H. rewrite Hld' in H'. destruct H as [_ H].
  split; [exact H | exact H'].
Defined.
